(** * Modbus RTU hardware abstraction layer: model and verified properties

    A shallow embedding of [src/hal/hal_modbus.c] (with [hal_modbus.h]):
    the CRC16 engine, the read-request frame, the response loop and the
    response checks of [modbus_read_temperature]/[modbus_read_pressure], and
    the session functions [hal_modbus_connect], [hal_modbus_disconnect],
    [hal_modbus_write_register] and [hal_modbus_read_registers].

    Integers of the C program are [Z] with the casts and wrap-arounds of the
    source written out; bytes are [Z] in [0, 256); the [float] results are
    IEEE binary32 numbers ([spec_float] at precision 24); the operating
    system (serial port, tick counter, heap) is an explicit [world] that the
    functions thread through. *)

From Stdlib Require Import ZArith List Bool Lia String.
From Stdlib Require Import Floats.SpecFloat.
From stdpp Require Import base option list gmap.
Import ListNotations.
Local Open Scope Z_scope.

(** ** Machine integers *)

(** [(unsigned char)x] *)
Definition uchar (x : Z) : Z := x mod 256.

(** [(unsigned short)x], [(uint16_t)x] *)
Definition ushort (x : Z) : Z := x mod 65536.

(** [(DWORD)x], [(unsigned int)x] *)
Definition dword (x : Z) : Z := x mod 2 ^ 32.

Definition is_byte (b : Z) : Prop := 0 <= b < 256.

(** ** CRC16 engine ([crc16], hal_modbus.c lines 131-147) *)

(** One turn of the inner loop: test bit 0, shift right, and fold the
    polynomial in when the bit shifted out was set. *)
Definition crc16_shift (crc : Z) : Z :=
  if negb (Z.land crc 0x0001 =? 0)
  then Z.lxor (Z.shiftr crc 1) 0xA001
  else Z.shiftr crc 1.

(** [for (int i = 8; i != 0; i--)] *)
Fixpoint crc16_bits (i : nat) (crc : Z) : Z :=
  match i with
  | O => crc
  | S i' => crc16_bits i' (crc16_shift crc)
  end.

(** The body of the outer loop for one [buffer[pos]]. *)
Definition crc16_byte (crc b : Z) : Z := crc16_bits 8 (Z.lxor crc b).

(** [crc16(buffer, buffer_length)]: the first [buffer_length] bytes are
    folded into a register that starts at 0xFFFF.  The length is an
    [unsigned short] parameter, so that what the caller passes is taken
    modulo 65536. *)
Definition crc16 (buffer : list Z) (buffer_length : Z) : Z :=
  fold_left crc16_byte (firstn (Z.to_nat (ushort buffer_length)) buffer) 0xFFFF.

(** ** The reference CRC-16/MODBUS

    The definition the spec appeals to ("the reference Modbus RTU CRC16
    algorithm"), written from the catalogue parameters of CRC-16/MODBUS and
    not from the source: width 16, polynomial 0x8005, initial value 0xFFFF,
    input and output reflected, no final xor.  The register is shifted left,
    most significant bit first, one message bit at a time. *)
Module Reference.

(** The first [n] message bits of a byte, least significant first
    (reflected input). *)
Fixpoint bits_lsb_first (n : nat) (b : Z) : list bool :=
  match n with
  | O => []
  | S n' => Z.odd b :: bits_lsb_first n' (Z.div2 b)
  end.

Definition bits_of_byte (b : Z) : list bool := bits_lsb_first 8 b.

(** Feed one message bit to the 16-bit register. *)
Definition feed (reg : Z) (bit : bool) : Z :=
  let top := xorb (Z.testbit reg 15) bit in
  let reg' := Z.land (Z.shiftl reg 1) 0xFFFF in
  if top then Z.lxor reg' 0x8005 else reg'.

(** Bit reversal of a 16-bit word (reflected output). *)
Definition reflect16 (x : Z) : Z :=
  fold_left
    (fun acc i =>
       if Z.testbit x (Z.of_nat i) then Z.lor acc (Z.shiftl 1 (15 - Z.of_nat i)) else acc)
    (seq 0 16) 0.

Definition crc16_modbus (message : list Z) : Z :=
  reflect16
    (fold_left (fun reg b => fold_left feed (bits_of_byte b) reg) message 0xFFFF).

End Reference.

(** ** Request frame (hal_modbus.c lines 219-230 and 372-383)

    Both sensor functions fill [request[0..5]], compute the CRC of those six
    bytes and store it low byte first. *)
Definition request_frame (addr reg : Z) : list Z :=
  let request :=
    [ uchar addr;                 (* Slave address *)
      0x03;                       (* Function code *)
      uchar (Z.shiftr reg 8);     (* Register address, high byte *)
      uchar (Z.land reg 0xFF);    (* Register address, low byte *)
      0x00;                       (* Number of registers, high byte *)
      0x01 ] in                   (* Number of registers, low byte *)
  let crc := crc16 request 6 in
  request ++ [ uchar (Z.land crc 0xFF); uchar (Z.land (Z.shiftr crc 8) 0xFF) ].

(** ** Binary32 arithmetic of the return values *)

Definition float32 : Type := spec_float.

(** Conversion of an integer to [float]. *)
Definition float_of_int (z : Z) : float32 := binary_normalize 24 128 z 0 false.

Definition float_div (x y : float32) : float32 := SFdiv 24 128 x y.

(** ** Outcome of a sensor read

    Every failure returns [-1.0f]; the paths differ by the diagnostic they
    print, which is what [failure] records. *)
Inductive failure : Set :=
| PortOpenFailed      (* "Failed to open serial port" *)
| GetCommStateFailed  (* "Failed to get comm state" *)
| SetCommStateFailed  (* "Failed to set comm state" *)
| SetTimeoutsFailed   (* "Failed to set timeouts" *)
| WriteFailed         (* "Failed to write to serial port" *)
| ReadTimeout         (* "Failed to read from serial port or timeout" *)
| InvalidResponse     (* "Invalid response (expected addr=.. func=03 ..)" *)
| InvalidDataLength.  (* "Invalid data length in response" *)

Inductive outcome : Set :=
| Failed (f : failure)
| Decoded (raw : Z).

(** The [float] a sensor function returns: [raw / scale] on success (the
    scale is [10.0f] for temperature and [100.0f] for pressure) and [-1.0f]
    on every failure. *)
Definition return_value (scale : Z) (o : outcome) : float32 :=
  match o with
  | Failed _ => float_of_int (-1)
  | Decoded raw => float_div (float_of_int raw) (float_of_int scale)
  end.

(** ** Response checks (lines 262-299 and 415-452)

    [response] holds the [total_read] bytes accumulated by the read loop. *)
Definition parse_response (addr : Z) (response : list Z) : outcome :=
  let total_read := Z.of_nat (length response) in
  if total_read <? 7 then Failed ReadTimeout
  else if negb (nth 0 response 0 =? addr) || negb (nth 1 response 0 =? 0x03)
  then Failed InvalidResponse
  else if (total_read <? 5) || negb (nth 2 response 0 =? 2)
  then Failed InvalidDataLength
  else Decoded (ushort (Z.lor (Z.shiftl (nth 3 response 0) 8) (nth 4 response 0))).

(** ** The operating system as the HAL sees it

    The Win32 calls of the source are modelled by a [world] that is threaded
    through the functions.  What the outside decides (whether the port opens,
    what each [ReadFile] delivers and how long it blocks) is data of the
    world, so that a theorem quantifying over worlds quantifies over every
    behaviour of the transport. *)

(** What one call of [ReadFile] does: its [BOOL] result, the bytes the line
    has for it, and the milliseconds it blocks. *)
Record read_event : Type := {
  ev_ok : bool;
  ev_data : list Z;
  ev_wait : Z
}.

(** Answers of the serial driver to the set-up calls and to [WriteFile]. *)
Record port_behaviour : Type := {
  create_ok : bool;
  get_state_ok : bool;
  set_state_ok : bool;
  set_timeouts_ok : bool;
  write_ok : bool;
  write_count : Z
}.

(** [modbus_t] of hal_modbus.h; [hSerial] is the [HANDLE] as an integer. *)
Record modbus_t : Type := {
  device : string;
  baud : Z;
  slave_id : Z;
  connected : Z;
  hSerial : Z
}.

Record world : Type := {
  heap : gmap positive modbus_t;   (* live [malloc] blocks holding a context *)
  malloc_ok : bool;                (* whether [malloc] finds memory *)
  handles : gset Z;                (* open serial handles *)
  os : port_behaviour;
  clock : Z;                       (* milliseconds since boot *)
  epoch : Z;                       (* [time(NULL)] *)
  line : list read_event;          (* what the coming [ReadFile] calls do *)
  wire : list (list Z)             (* byte strings put on the wire, latest first *)
}.

Definition set_heap (m : gmap positive modbus_t) (w : world) : world :=
  {| heap := m; malloc_ok := malloc_ok w; handles := handles w; os := os w;
     clock := clock w; epoch := epoch w; line := line w; wire := wire w |}.

Definition set_handles (hs : gset Z) (w : world) : world :=
  {| heap := heap w; malloc_ok := malloc_ok w; handles := hs; os := os w;
     clock := clock w; epoch := epoch w; line := line w; wire := wire w |}.

Definition set_clock (t : Z) (w : world) : world :=
  {| heap := heap w; malloc_ok := malloc_ok w; handles := handles w; os := os w;
     clock := t; epoch := epoch w; line := line w; wire := wire w |}.

Definition set_line (l : list read_event) (w : world) : world :=
  {| heap := heap w; malloc_ok := malloc_ok w; handles := handles w; os := os w;
     clock := clock w; epoch := epoch w; line := l; wire := wire w |}.

Definition set_wire (tx : list (list Z)) (w : world) : world :=
  {| heap := heap w; malloc_ok := malloc_ok w; handles := handles w; os := os w;
     clock := clock w; epoch := epoch w; line := line w; wire := tx |}.

Definition INVALID_HANDLE_VALUE : Z := -1.

(** [snprintf(port_name, 32, "\\\\.\\%s", device)] *)
Definition port_name (dev : string) : string :=
  String.substring 0 31 ("\\.\" ++ dev)%string.

(** [CreateFileA]: a handle that is neither [NULL], nor invalid, nor open. *)
Definition CreateFileA (name : string) (w : world) : Z * world :=
  if create_ok (os w)
  then let h := fresh ({[ 0; INVALID_HANDLE_VALUE ]} ∪ handles w) in
       (h, set_handles ({[ h ]} ∪ handles w) w)
  else (INVALID_HANDLE_VALUE, w).

Definition CloseHandle (h : Z) (w : world) : world :=
  set_handles (handles w ∖ {[ h ]}) w.

Definition GetCommState (h : Z) (w : world) : bool := get_state_ok (os w).
Definition SetCommState (h : Z) (w : world) : bool := set_state_ok (os w).
Definition SetCommTimeouts (h : Z) (w : world) : bool := set_timeouts_ok (os w).

(** [PurgeComm] drops what the driver had buffered before the request; the
    [line] of the world is what arrives afterwards. *)
Definition PurgeComm (h : Z) (w : world) : world := w.

(** [WriteFile(h, buf, n, &bytes_written, NULL)] *)
Definition WriteFile (h : Z) (buf : list Z) (n : Z) (w : world) : bool * Z * world :=
  if write_ok (os w)
  then let sent := firstn (Z.to_nat (Z.min n (write_count (os w)))) buf in
       (true, Z.of_nat (length sent), set_wire (sent :: wire w) w)
  else (false, 0, w).

Definition Sleep (ms : Z) (w : world) : world := set_clock (clock w + ms) w.

Definition GetTickCount (w : world) : Z := dword (clock w).

(** [ReadFile(h, buf, max_len, &bytes_read, NULL)]: at most [max_len] bytes
    are stored; a silent line answers success with no byte. *)
Definition ReadFile (h : Z) (max_len : Z) (w : world) : bool * list Z * world :=
  match line w with
  | [] => (true, [], w)
  | e :: rest =>
      let w' := set_line rest (set_clock (clock w + ev_wait e) w) in
      if ev_ok e
      then (true, map uchar (firstn (Z.to_nat max_len) (ev_data e)), w')
      else (false, [], w')
  end.

(** ** The response loop (lines 246-260 and 399-413)

    [response] is the part of the buffer filled so far, so that [total_read]
    is its length.  One unit of [fuel] is one evaluation of the loop
    condition; [None] means the fuel ran out before the loop left. *)
Fixpoint read_loop (fuel : nat) (hSerial : Z) (start_time : Z)
    (response : list Z) (w : world) : option (list Z * world) :=
  match fuel with
  | O => None
  | S fuel' =>
      let total_read := Z.of_nat (length response) in
      if negb (total_read <? 256) then Some (response, w)
      else if negb (dword (GetTickCount w - start_time) <? 1000) then Some (response, w)
      else
        match ReadFile hSerial (256 - total_read) w with
        | (true, data, w1) =>
            if 0 <? Z.of_nat (length data)
            then
              let response' := response ++ data in
              if 7 <=? Z.of_nat (length response')
              then Some (response', w1)                                  (* break *)
              else read_loop fuel' hSerial start_time response' (Sleep 10 w1)
            else read_loop fuel' hSerial start_time response (Sleep 10 w1)
        | (false, _, w1) => read_loop fuel' hSerial start_time response (Sleep 10 w1)
        end
  end.

(** ** The sensor functions

    [modbus_read_temperature] and [modbus_read_pressure] are the same text up
    to the time-out constants handed to the driver and the final scale; the
    shared text is [read_sensor].  The handle is closed on every path after
    the port opened (twice on the two validation failures, which closes
    nothing more). *)
Definition read_sensor (fuel : nat) (dev : string) (addr reg : Z) (w : world)
  : option (outcome * world) :=
  let (hSerial, w) := CreateFileA (port_name dev) w in
  if hSerial =? INVALID_HANDLE_VALUE then Some (Failed PortOpenFailed, w)
  else if negb (GetCommState hSerial w)
  then Some (Failed GetCommStateFailed, CloseHandle hSerial w)
  else if negb (SetCommState hSerial w)
  then Some (Failed SetCommStateFailed, CloseHandle hSerial w)
  else if negb (SetCommTimeouts hSerial w)
  then Some (Failed SetTimeoutsFailed, CloseHandle hSerial w)
  else
    let request := request_frame addr reg in
    let w := PurgeComm hSerial w in
    let '(ok, bytes_written, w) := WriteFile hSerial request 8 w in
    if negb ok || negb (bytes_written =? 8)
    then Some (Failed WriteFailed, CloseHandle hSerial w)
    else
      let w := Sleep 100 w in
      let start_time := GetTickCount w in
      match read_loop fuel hSerial start_time [] w with
      | None => None
      | Some (response, w) =>
          Some (parse_response addr response, CloseHandle hSerial w)
      end.

Definition modbus_read_temperature (fuel : nat) (dev : string) (addr reg : Z)
    (w : world) : option (float32 * world) :=
  match read_sensor fuel dev addr reg w with
  | Some (o, w') => Some (return_value 10 o, w')
  | None => None
  end.

Definition modbus_read_pressure (fuel : nat) (dev : string) (addr reg : Z)
    (w : world) : option (float32 * world) :=
  match read_sensor fuel dev addr reg w with
  | Some (o, w') => Some (return_value 100 o, w')
  | None => None
  end.

(** ** Register sessions (lines 8-128) *)

(** A [modbus_t*]: [NULL] or the address of a block. *)
Inductive ptr : Set :=
| NULL
| Ptr (b : positive).

(** Behaviour the C standard leaves undefined: the model stops there. *)
Inductive undefined : Set :=
| UseAfterFree    (* access through a pointer whose block is not live *)
| OutOfBounds.    (* store past the end of the destination array *)

Inductive exec (A : Type) : Type :=
| Done (a : A) (w : world)
| Undefined (u : undefined).
Arguments Done {A} a w.
Arguments Undefined {A} u.

(** [free(ctx)] *)
Definition free (b : positive) (w : world) : world :=
  set_heap (delete b (heap w)) w.

(** [strncpy(ctx->device, device, 255)] followed by the terminating zero. *)
Definition copy_device (dev : string) : string := String.substring 0 255 dev.

Definition hal_modbus_connect (dev : string) (baud slave_id : Z) (w : world)
  : ptr * world :=
  if negb (malloc_ok w) then (NULL, w)
  else
    let b := fresh (dom (heap w)) in
    let ctx := {| device := copy_device dev; baud := baud; slave_id := slave_id;
                  connected := 0; hSerial := 0 |} in
    let w := set_heap (<[ b := ctx ]> (heap w)) w in
    let (h, w) := CreateFileA (port_name dev) w in
    if h =? INVALID_HANDLE_VALUE then (NULL, free b w)
    else if negb (GetCommState h w) then (NULL, free b (CloseHandle h w))
    else if negb (SetCommState h w) then (NULL, free b (CloseHandle h w))
    else if negb (SetCommTimeouts h w) then (NULL, free b (CloseHandle h w))
    else
      let ctx := {| device := copy_device dev; baud := baud; slave_id := slave_id;
                    connected := 1; hSerial := h |} in
      (Ptr b, set_heap (<[ b := ctx ]> (heap w)) w).

(** [hal_modbus_disconnect]: nothing on [NULL]; otherwise the handle is
    closed when it is neither [NULL] nor invalid, [connected] is cleared and
    the block is freed.  The block must be live for [ctx->device] and
    [ctx->hSerial] to be read and for [free] to be defined. *)
Definition hal_modbus_disconnect (ctx : ptr) (w : world) : exec unit :=
  match ctx with
  | NULL => Done tt w
  | Ptr b =>
      match heap w !! b with
      | None => Undefined UseAfterFree
      | Some c =>
          let w :=
            if negb (hSerial c =? 0) && negb (hSerial c =? INVALID_HANDLE_VALUE)
            then CloseHandle (hSerial c) w
            else w in
          Done tt (free b w)
      end
  end.

(** [hal_modbus_write_register]: no call into the driver on any path. *)
Definition hal_modbus_write_register (ctx : ptr) (addr value : Z) (w : world)
  : exec Z :=
  match ctx with
  | NULL => Done (-1) w
  | Ptr b =>
      match heap w !! b with
      | None => Undefined UseAfterFree
      | Some c =>
          if connected c =? 0 then Done (-1) w
          else Done 0 w
      end
  end.

(** The generator of the C library: [srand] and [rand].  The source calls
    them and does not define them. *)
Record prng : Type := {
  rng : Type;
  srand : Z -> rng;
  rand : rng -> Z * rng
}.

(** The loop [for (i = 0; i < num; i++) dest[i] = (uint16_t)(rand() % 4000 + 1000)],
    with [n] turns left and index [i]; [None] when a store leaves the array. *)
Fixpoint fill_registers (P : prng) (n : nat) (i : nat) (g : rng P) (dest : list Z)
  : option (list Z) :=
  match n with
  | O => Some dest
  | S n' =>
      let (r, g') := rand P g in
      if (i <? length dest)%nat
      then fill_registers P n' (S i) g' (<[ i := ushort (Z.rem r 4000 + 1000) ]> dest)
      else None
  end.

(** [hal_modbus_read_registers]; [dest] is [None] for a [NULL] pointer and
    otherwise the array it points to.  The result carries the array after the
    call. *)
Definition hal_modbus_read_registers (P : prng) (ctx : ptr) (addr num : Z)
    (dest : option (list Z)) (w : world) : exec (Z * option (list Z)) :=
  match ctx with
  | NULL => Done (-1, dest) w
  | Ptr b =>
      match heap w !! b with
      | None => Undefined UseAfterFree
      | Some c =>
          if connected c =? 0 then Done (-1, dest) w
          else
            match dest with
            | None => Done (-1, None) w
            | Some d =>
                let g := srand P (dword (dword (epoch w) + addr)) in
                match fill_registers P (Z.to_nat num) 0 g d with
                | Some d' => Done (0, Some d') w
                | None => Undefined OutOfBounds
                end
            end
      end
  end.

(** The generator of the Microsoft C runtime, one instance of [prng]. *)
Definition msvc_rand : prng :=
  {| rng := Z;
     srand := fun seed => seed;
     rand := fun s =>
       let s' := dword (s * 214013 + 2531011) in
       (Z.land (Z.shiftr s' 16) 0x7FFF, s') |}.

(** ** The validation steps as the specification words them

    Section 4.4 of the specification lists the steps of a generic
    [parse_register_response]; this is that list, for comparison with
    [parse_response]. *)
Module Spec.

Inductive error : Set :=
| IncompleteResponse
| ShortResponse
| UnexpectedEcho
| UnexpectedByteCount.

Definition parse_register_response (response : list Z)
    (expected_addr expected_function : Z) : error + Z :=
  if Z.of_nat (length response) <? 5 then inl ShortResponse
  else if negb (nth 0 response 0 =? expected_addr)
          || negb (nth 1 response 0 =? expected_function)
  then inl UnexpectedEcho
  else if negb (nth 2 response 0 =? 2) then inl UnexpectedByteCount
  else inr (Z.lor (Z.shiftl (nth 3 response 0) 8) (nth 4 response 0)).

(** The diagnostic of the source that stands for each error of the
    taxonomy: a length below 5 and a wrong byte count are reported by the
    same branch (line 287). *)
Definition failure_of (e : error) : failure :=
  match e with
  | IncompleteResponse => ReadTimeout
  | ShortResponse => InvalidDataLength
  | UnexpectedEcho => InvalidResponse
  | UnexpectedByteCount => InvalidDataLength
  end.

Definition outcome_of (r : error + Z) : outcome :=
  match r with
  | inl e => Failed (failure_of e)
  | inr raw => Decoded (ushort raw)
  end.

End Spec.

(** ** Auxiliary definitions of the proofs *)

(** One message bit folded into the register of [crc16]: the step that
    corresponds to [Reference.feed]. *)
Definition crc16_bit (crc : Z) (bit : bool) : Z :=
  crc16_shift (Z.lxor crc (Z.b2z bit)).

(** The check that one step of [crc16] on the reflected register is one step
    of the reference register, for both values of the message bit. *)
Definition reflect_step_ok (reg : Z) : bool :=
  forallb
    (fun bit =>
       crc16_bit (Reference.reflect16 reg) bit =? Reference.reflect16 (Reference.feed reg bit))
    [false; true].

(** [p] holds of the [n] integers from [x] on. *)
Fixpoint all_from (n : nat) (x : Z) (p : Z -> bool) : bool :=
  match n with
  | O => true
  | S n' => p x && all_from n' (x + 1) p
  end.


(** ** Sample worlds, for the concrete runs *)

(** A port that opens, configures and takes the whole request. *)
Definition good_port : port_behaviour :=
  {| create_ok := true; get_state_ok := true; set_state_ok := true;
     set_timeouts_ok := true; write_ok := true; write_count := 8 |}.

(** A freshly booted machine whose line will deliver [events]. *)
Definition quiet_world (events : list read_event) : world :=
  {| heap := ∅; malloc_ok := true; handles := ∅; os := good_port;
     clock := 0; epoch := 0; line := events; wire := [] |}.

(** A device that answers six bytes, with a foreign address, and falls
    silent. *)
Definition six_bytes_then_silence : world :=
  quiet_world [ {| ev_ok := true; ev_data := [9; 3; 2; 0; 250; 0]; ev_wait := 20 |} ].

(** ** The assumption on the driver

    Every [ReadFile] returns, after at most [B] milliseconds: the time-outs
    the source configures (lines 205-210 and 358-363) bound a call by
    [ReadTotalTimeoutConstant + 256 * ReadTotalTimeoutMultiplier]. *)
Definition tame (B : Z) (w : world) : Prop :=
  Forall (fun e => 0 <= ev_wait e <= B) (line w).

(** ** The state of a session handle

    [Some true] for a live context that is connected (Open), [Some false] for
    [NULL] and for a live context with [connected == 0], [None] for a pointer
    to a block that is not live. *)
Definition session_open (ctx : ptr) (w : world) : option bool :=
  match ctx with
  | NULL => Some false
  | Ptr b =>
      match heap w !! b with
      | Some c => Some (negb (connected c =? 0))
      | None => None
      end
  end.

(** A world with one context that was set up and never connected. *)
Definition idle_context : modbus_t :=
  {| device := "COM3"; baud := 9600; slave_id := 1; connected := 0; hSerial := 0 |}.

Definition idle_world : world :=
  set_heap {[ 1%positive := idle_context ]} (quiet_world []).

(** The world after a successful [hal_modbus_connect], and the context the
    returned handle [Ptr 1] points to. *)
Definition connected_world : world :=
  snd (hal_modbus_connect "COM3" 9600 1 (quiet_world [])).

Definition connected_context : modbus_t :=
  {| device := "COM3"; baud := 9600; slave_id := 1; connected := 1; hSerial := 1 |}.

(** ** Further auxiliary definitions *)

(** The step that undoes [crc16_shift] on a 16-bit register: bit 15 of the
    result tells whether the polynomial was folded in, that is, which bit
    was shifted out. *)
Definition crc16_unshift (y : Z) : Z :=
  if Z.testbit y 15 then 2 * Z.lxor y 0xA001 + 1 else 2 * y.

Definition unshift_ok (x : Z) : bool := crc16_unshift (crc16_shift x) =? x.

(** A finite binary32 number that is not negative. *)
Definition nonneg_finite (f : float32) : bool :=
  match f with
  | S754_zero false => true
  | S754_finite false _ _ => true
  | _ => false
  end.

Definition reading_ok (raw : Z) : bool :=
  nonneg_finite (return_value 10 (Decoded raw))
  && nonneg_finite (return_value 100 (Decoded raw)).

(** The bytes one [ReadFile] adds to the buffer: those of a successful call,
    as [unsigned char]s, and none of a failed one. *)
Definition delivered (e : read_event) : list Z :=
  if ev_ok e then map uchar (ev_data e) else [].

(** A driver that opens and configures the port and takes the whole request. *)
Definition port_works (p : port_behaviour) : Prop :=
  create_ok p = true /\ get_state_ok p = true /\ set_state_ok p = true
  /\ set_timeouts_ok p = true /\ write_ok p = true /\ 8 <= write_count p.

(** The handle a sensor read gets from [CreateFileA], and the world in which
    its response loop starts once the port is set up: the handle is open, the
    request is on the wire and the 100 ms settle delay has passed. *)
Definition sensor_handle (w : world) : Z :=
  fresh ({[ 0; INVALID_HANDLE_VALUE ]} ∪ handles w).

Definition listening_world (addr reg : Z) (w : world) : world :=
  Sleep 100
    (set_wire (request_frame addr reg :: wire w)
       (set_handles ({[ sensor_handle w ]} ∪ handles w) w)).

(** The set-up and write failures, which precede any read. *)
Definition early_failure (f : failure) : bool :=
  match f with
  | PortOpenFailed | GetCommStateFailed | SetCommStateFailed
  | SetTimeoutsFailed | WriteFailed => true
  | ReadTimeout | InvalidResponse | InvalidDataLength => false
  end.

(** A line on which slave 17 answers 0x0102 in one read, with stray CRC
    bytes. *)
Definition slave17_world : world :=
  quiet_world [ {| ev_ok := true; ev_data := [17; 0x03; 2; 1; 2; 0xAA; 0xBB];
                   ev_wait := 30 |} ].

(** A machine whose port opens but takes only five of the eight request
    bytes. *)
Definition short_write_world : world :=
  {| heap := ∅; malloc_ok := true; handles := ∅;
     os := {| create_ok := true; get_state_ok := true; set_state_ok := true;
              set_timeouts_ok := true; write_ok := true; write_count := 5 |};
     clock := 0; epoch := 0; line := []; wire := [] |}.

(** Whether [malloc] and every step of the port set-up of
    [hal_modbus_connect] succeed. *)
Definition connect_ok (w : world) : bool :=
  malloc_ok w && create_ok (os w) && get_state_ok (os w) && set_state_ok (os w)
  && set_timeouts_ok (os w).

(** The context [hal_modbus_connect] leaves in the block it returns. *)
Definition open_context (dev : string) (baud slave_id h : Z) : modbus_t :=
  {| device := copy_device dev; baud := baud; slave_id := slave_id;
     connected := 1; hSerial := h |}.

(** A machine on which no port opens. *)
Definition no_port_world : world :=
  {| heap := ∅; malloc_ok := true; handles := ∅;
     os := {| create_ok := false; get_state_ok := true; set_state_ok := true;
              set_timeouts_ok := true; write_ok := true; write_count := 8 |};
     clock := 0; epoch := 0; line := []; wire := [] |}.

(** The first [n] values of the simulation: what [n] successive calls of
    [rand] give, each taken modulo 4000 and raised by 1000. *)
Fixpoint simulated (P : prng) (n : nat) (g : rng P) : list Z :=
  match n with
  | O => []
  | S n' =>
      let (r, g') := rand P g in
      ushort (Z.rem r 4000 + 1000) :: simulated P n' g'
  end.

(** A machine at second [t] with the Open session [connected_context] in
    block 1. *)
Definition session_world_at (t : Z) : world :=
  {| heap := {[ 1%positive := connected_context ]}; malloc_ok := true;
     handles := {[ 1 ]}; os := good_port;
     clock := 0; epoch := t; line := []; wire := [] |}.

(** ** DI pin of the UART board ([uart_read_di_pin], hal_uart.c)

    The function prints two lines and returns -1 for every device and pin: no
    hardware is accessed. *)
Definition uart_read_di_pin (dev : string) (pin_number : Z) : Z := -1.

(** ** The trace of the response loop

    The bytes one [ReadFile] with room for [max_len] bytes adds to the
    buffer: those of a successful call that fit, and none of a failed one. *)
Definition received (max_len : Z) (e : read_event) : list Z :=
  if ev_ok e then map uchar (firstn (Z.to_nat max_len) (ev_data e)) else [].

(** The buffer after the reads [events], one after the other, each with the
    room that is left of the 256 bytes. *)
Fixpoint accumulate (events : list read_event) (response : list Z) : list Z :=
  match events with
  | [] => response
  | e :: rest =>
      accumulate rest (response ++ received (256 - Z.of_nat (length response)) e)
  end.

(** The time the reads [events] block, in milliseconds. *)
Definition total_wait (events : list read_event) : Z :=
  fold_right (fun e t => ev_wait e + t) 0 events.

(** A reply that arrives in two reads, followed by a stray byte. *)
Definition reply_in_two_reads : world :=
  quiet_world [ {| ev_ok := true; ev_data := [1; 3; 2]; ev_wait := 20 |};
                {| ev_ok := true; ev_data := [0; 250; 0x38; 0x07]; ev_wait := 5 |};
                {| ev_ok := true; ev_data := [99]; ev_wait := 5 |} ].

(** A device with a foreign address whose reply is cut after three bytes. *)
Definition three_bytes_then_silence : world :=
  quiet_world [ {| ev_ok := true; ev_data := [9; 3; 2]; ev_wait := 20 |} ].

(** The world after [hal_modbus_connect] and [hal_modbus_disconnect]: the
    handle [Ptr 1] that the former returned is dangling. *)
Definition disconnected_world : world :=
  match hal_modbus_disconnect (Ptr 1) connected_world with
  | Done _ w => w
  | Undefined _ => connected_world
  end.

(** * Properties *)

(** ** Bit-level facts about the CRC register *)

Lemma land_one_odd (x : Z) : Z.land x 1 = Z.b2z (Z.odd x).
Proof.
  change 1 with (Z.ones 1). rewrite Z.land_ones by lia.
  rewrite <- Z.bit0_odd, Z.bit0_mod. reflexivity.
Qed.

Lemma odd_lxor (x y : Z) : Z.odd (Z.lxor x y) = xorb (Z.odd x) (Z.odd y).
Proof. rewrite <- !Z.bit0_odd. apply Z.lxor_spec. Qed.

Lemma crc16_shift_odd (x : Z) :
  crc16_shift x = if Z.odd x then Z.lxor (Z.shiftr x 1) 0xA001 else Z.shiftr x 1.
Proof.
  unfold crc16_shift. rewrite land_one_odd. destruct (Z.odd x); reflexivity.
Qed.

Lemma lxor_bound (n a b : Z) :
  0 < n -> 0 <= a < 2 ^ n -> 0 <= b < 2 ^ n -> 0 <= Z.lxor a b < 2 ^ n.
Proof.
  intros Hn Ha Hb.
  assert (Hnn : 0 <= Z.lxor a b) by (apply Z.lxor_nonneg; lia).
  split; [exact Hnn|].
  destruct (Z.eq_dec (Z.lxor a b) 0) as [->|Hne]; [apply Z.pow_pos_nonneg; lia|].
  apply Z.log2_lt_pow2; [lia|].
  pose proof (Z.log2_lxor a b ltac:(lia) ltac:(lia)) as Hl.
  assert (Z.log2 a < n).
  { destruct (Z.eq_dec a 0) as [->|]; [simpl; lia|]. apply Z.log2_lt_pow2; lia. }
  assert (Z.log2 b < n).
  { destruct (Z.eq_dec b 0) as [->|]; [simpl; lia|]. apply Z.log2_lt_pow2; lia. }
  lia.
Qed.

Lemma crc16_shift_range (crc : Z) :
  0 <= crc < 65536 -> 0 <= crc16_shift crc < 65536.
Proof.
  intros H. rewrite crc16_shift_odd.
  assert (Hs : 0 <= Z.shiftr crc 1 < 32768).
  { rewrite Z.shiftr_div_pow2 by lia. change (2 ^ 1) with 2.
    split; [apply Z.div_pos; lia | apply Z.div_lt_upper_bound; lia]. }
  destruct (Z.odd crc); [|lia].
  apply (lxor_bound 16); lia.
Qed.

Lemma crc16_bits_range (i : nat) (crc : Z) :
  0 <= crc < 65536 -> 0 <= crc16_bits i crc < 65536.
Proof.
  revert crc. induction i as [|i IH]; intros crc H; cbn [crc16_bits]; [exact H|].
  apply IH, crc16_shift_range, H.
Qed.

Lemma crc16_byte_range (crc b : Z) :
  0 <= crc < 65536 -> is_byte b -> 0 <= crc16_byte crc b < 65536.
Proof.
  intros Hc Hb. unfold crc16_byte. apply crc16_bits_range.
  unfold is_byte in Hb. apply (lxor_bound 16); lia.
Qed.

Create HintDb crc.
#[local] Hint Resolve crc16_shift_range crc16_bits_range crc16_byte_range : crc.

(** Closes [Forall is_byte l] for a list [l] of literals and of values cast
    to [unsigned char]. *)
Ltac bytes :=
  repeat (apply List.Forall_cons;
          [unfold is_byte, uchar; first [lia | apply Z.mod_pos_bound; lia]|]);
  try apply List.Forall_nil.

Lemma fold_crc16_byte_range (l : list Z) (crc : Z) :
  Forall is_byte l -> 0 <= crc < 65536 -> 0 <= fold_left crc16_byte l crc < 65536.
Proof.
  intros Hl. revert crc.
  induction Hl as [|b l Hb _ IH]; intros crc Hc; cbn [fold_left]; auto with crc.
Qed.

Lemma crc16_range (buffer : list Z) (n : Z) :
  Forall is_byte buffer -> 0 <= crc16 buffer n < 65536.
Proof.
  intros H. unfold crc16. apply fold_crc16_byte_range; [|lia].
  apply Forall_take, H.
Qed.

(** With a length that fits the [unsigned short] parameter, [crc16] folds that
    many bytes; at the length of the buffer, all of them. *)
Lemma crc16_fold (buffer : list Z) (n : Z) :
  0 <= n < 65536 ->
  crc16 buffer n = fold_left crc16_byte (firstn (Z.to_nat n) buffer) 0xFFFF.
Proof.
  intros Hn. unfold crc16, ushort. rewrite Z.mod_small by exact Hn. reflexivity.
Qed.

Lemma crc16_whole (buffer : list Z) :
  Z.of_nat (length buffer) < 65536 ->
  crc16 buffer (Z.of_nat (length buffer)) = fold_left crc16_byte buffer 0xFFFF.
Proof.
  intros Hn. rewrite crc16_fold by lia. rewrite Nat2Z.id, firstn_all. reflexivity.
Qed.

(** ** The frame ends in its own CRC *)

Lemma crc16_shift_double (y : Z) : crc16_shift (2 * y) = y.
Proof.
  rewrite crc16_shift_odd, Z.odd_mul. simpl.
  rewrite Z.shiftr_div_pow2 by lia. change (2 ^ 1) with 2.
  rewrite Z.mul_comm. apply Z.div_mul. lia.
Qed.

Lemma crc16_bits_pow2 (k : nat) (q : Z) : crc16_bits k (2 ^ Z.of_nat k * q) = q.
Proof.
  revert q. induction k as [|k IH]; intros q.
  - simpl. lia.
  - cbn [crc16_bits].
    replace (2 ^ Z.of_nat (S k) * q) with (2 * (2 ^ Z.of_nat k * q)).
    + rewrite crc16_shift_double. apply IH.
    + rewrite Nat2Z.inj_succ, Z.pow_succ_r by lia. lia.
Qed.

Lemma lxor_low_byte (c : Z) : Z.lxor c (c mod 256) = 256 * (c / 256).
Proof.
  change 256 with (2 ^ 8). rewrite <- Z.land_ones by lia.
  rewrite <- Z.shiftr_div_pow2, Z.mul_comm, <- Z.shiftl_mul_pow2 by lia.
  rewrite <- Z.ldiff_ones_r by lia.
  apply Z.bits_inj'. intros n Hn.
  rewrite Z.lxor_spec, Z.land_spec, Z.ldiff_spec.
  destruct (Z.testbit c n), (Z.testbit (Z.ones 8) n); reflexivity.
Qed.

(** Folding the low byte of the register into it leaves the high byte. *)
Lemma crc16_byte_low (c : Z) : crc16_byte c (c mod 256) = c / 256.
Proof.
  unfold crc16_byte. rewrite lxor_low_byte. apply (crc16_bits_pow2 8).
Qed.

Lemma crc16_byte_self (h : Z) : crc16_byte h h = 0.
Proof. unfold crc16_byte. rewrite Z.lxor_nilpotent. reflexivity. Qed.

Lemma fold_crc16_append_crc (l : list Z) (init : Z) :
  let c := fold_left crc16_byte l init in
  fold_left crc16_byte (l ++ [c mod 256; c / 256]) init = 0.
Proof.
  intros c. rewrite fold_left_app. fold c. cbn [fold_left].
  rewrite crc16_byte_low. apply crc16_byte_self.
Qed.

(** ** [crc16] against the reference CRC-16/MODBUS *)

Lemma all_from_spec (n : nat) (p : Z -> bool) (x : Z) :
  all_from n x p = true -> forall y, x <= y < x + Z.of_nat n -> p y = true.
Proof.
  revert x. induction n as [|n IH]; intros x H y Hy; [lia|].
  cbn [all_from] in H. apply andb_prop in H as [Hx Hn].
  destruct (Z.eq_dec y x) as [->|Hne]; [exact Hx|].
  apply (IH (x + 1) Hn). lia.
Qed.

Lemma reflect_step_all : all_from (Z.to_nat 65536) 0 reflect_step_ok = true.
Proof. vm_compute. reflexivity. Qed.

Lemma crc16_shift_lxor_low (x b : Z) :
  crc16_shift (Z.lxor x b) = Z.lxor (crc16_bit x (Z.odd b)) (Z.div2 b).
Proof.
  unfold crc16_bit. rewrite !crc16_shift_odd, !odd_lxor, !Z.shiftr_lxor, Z.div2_spec.
  assert (Hb : Z.odd (Z.b2z (Z.odd b)) = Z.odd b) by (destruct (Z.odd b); reflexivity).
  assert (Hs : Z.shiftr (Z.b2z (Z.odd b)) 1 = 0) by (destruct (Z.odd b); reflexivity).
  rewrite Hb, Hs, Z.lxor_0_r.
  destruct (xorb (Z.odd x) (Z.odd b)); [|reflexivity].
  rewrite !Z.lxor_assoc. f_equal. apply Z.lxor_comm.
Qed.

(** Folding a whole byte in and shifting eight times is feeding its bits one
    at a time, least significant first. *)
Lemma crc16_bits_bitwise (k : nat) (x b : Z) :
  0 <= b < 2 ^ Z.of_nat k ->
  crc16_bits k (Z.lxor x b) = fold_left crc16_bit (Reference.bits_lsb_first k b) x.
Proof.
  revert x b. induction k as [|k IH]; intros x b Hb.
  - change (2 ^ Z.of_nat 0) with 1 in Hb. cbn [crc16_bits Reference.bits_lsb_first fold_left].
    replace b with 0 by lia. apply Z.lxor_0_r.
  - cbn [crc16_bits Reference.bits_lsb_first fold_left].
    rewrite crc16_shift_lxor_low. apply IH.
    rewrite Nat2Z.inj_succ, Z.pow_succ_r in Hb by lia.
    rewrite Z.div2_div.
    split; [apply Z.div_pos; lia | apply Z.div_lt_upper_bound; lia].
Qed.

Lemma feed_range (reg : Z) (bit : bool) : 0 <= Reference.feed reg bit < 65536.
Proof.
  unfold Reference.feed.
  assert (H : 0 <= Z.land (Z.shiftl reg 1) 0xFFFF < 65536).
  { change 0xFFFF with (Z.ones 16). rewrite Z.land_ones by lia.
    apply Z.mod_pos_bound. lia. }
  destruct (xorb _ _); [|exact H].
  apply (lxor_bound 16); lia.
Qed.

Lemma reflect_feed (reg : Z) (bit : bool) :
  0 <= reg < 65536 ->
  crc16_bit (Reference.reflect16 reg) bit = Reference.reflect16 (Reference.feed reg bit).
Proof.
  intros H.
  pose proof (all_from_spec _ _ _ reflect_step_all reg) as Hok.
  specialize (Hok ltac:(rewrite Z2Nat.id; lia)).
  unfold reflect_step_ok in Hok. cbn [forallb] in Hok.
  apply andb_prop in Hok as [Hf Ht]. apply andb_prop in Ht as [Ht _].
  destruct bit; apply Z.eqb_eq; assumption.
Qed.

Lemma fold_left_step {A B : Type} (f : A -> B -> A) (x : B) (l : list B) (a : A) :
  fold_left f (x :: l) a = fold_left f l (f a x).
Proof. reflexivity. Qed.

Lemma reflect_feed_bits (bits : list bool) (reg : Z) :
  0 <= reg < 65536 ->
  fold_left crc16_bit bits (Reference.reflect16 reg)
  = Reference.reflect16 (fold_left Reference.feed bits reg)
  /\ 0 <= fold_left Reference.feed bits reg < 65536.
Proof.
  revert reg. induction bits as [|bit bits IH]; intros reg H; [auto|].
  rewrite !fold_left_step, (reflect_feed reg bit H). apply IH, feed_range.
Qed.

Lemma crc16_byte_bitwise (crc b : Z) :
  is_byte b -> crc16_byte crc b = fold_left crc16_bit (Reference.bits_of_byte b) crc.
Proof.
  intros Hb. unfold crc16_byte, Reference.bits_of_byte.
  apply (crc16_bits_bitwise 8 crc b). exact Hb.
Qed.

(** The register of [crc16] is, byte after byte, the bit reversal of the
    reference register. *)
Lemma crc16_fold_reference (message : list Z) (reg : Z) :
  Forall is_byte message -> 0 <= reg < 65536 ->
  fold_left crc16_byte message (Reference.reflect16 reg)
  = Reference.reflect16
      (fold_left (fun r b => fold_left Reference.feed (Reference.bits_of_byte b) r)
         message reg).
Proof.
  intros Hm. revert reg.
  induction Hm as [|b l Hb _ IH]; intros reg Hreg; [reflexivity|].
  rewrite !fold_left_step.
  rewrite (crc16_byte_bitwise (Reference.reflect16 reg) b Hb).
  destruct (reflect_feed_bits (Reference.bits_of_byte b) reg Hreg) as [Heq Hr].
  rewrite Heq. apply IH, Hr.
Qed.

Lemma reflect16_ones : Reference.reflect16 0xFFFF = 0xFFFF.
Proof. reflexivity. Qed.

Lemma fold_is_reference (message : list Z) :
  Forall is_byte message ->
  fold_left crc16_byte message 0xFFFF = Reference.crc16_modbus message.
Proof.
  intros Hm. unfold Reference.crc16_modbus.
  rewrite <- reflect16_ones at 1.
  apply crc16_fold_reference; [exact Hm | lia].
Qed.

(** Whatever length is passed, [crc16] is the reference CRC of the bytes it
    folds: the first [buffer_length mod 65536] of the buffer. *)
Lemma crc16_is_reference_of_prefix (buffer : list Z) (buffer_length : Z) :
  Forall is_byte buffer ->
  crc16 buffer buffer_length
  = Reference.crc16_modbus (firstn (Z.to_nat (buffer_length mod 65536)) buffer).
Proof.
  intros Hm. unfold crc16, ushort. apply fold_is_reference, Forall_take, Hm.
Qed.

Lemma crc16_is_reference (message : list Z) :
  Forall is_byte message ->
  Z.of_nat (length message) < 65536 ->
  crc16 message (Z.of_nat (length message)) = Reference.crc16_modbus message.
Proof.
  intros Hm Hlen. rewrite crc16_whole by exact Hlen. apply fold_is_reference, Hm.
Qed.

(** C1. Every request frame built for a read is the eight bytes
    [slave_addr, 0x03, reg_addr_hi, reg_addr_lo, 0x00, 0x01, crc_lo, crc_hi]:
    the register count is 1, and the two trailing bytes are the low byte and
    then the high byte of [crc16] of the first six bytes, which is their
    reference CRC-16/MODBUS.  Consequently all eight are bytes and the CRC of
    the whole frame is zero, the check a receiver makes. *)
Theorem request_frame_layout (addr reg : Z) :
  let frame := request_frame addr reg in
  let crc := crc16 (firstn 6 frame) 6 in
  frame = [ addr mod 256; 0x03; (reg / 256) mod 256; reg mod 256; 0x00; 0x01;
            crc mod 256; crc / 256 ]
  /\ crc = Reference.crc16_modbus (firstn 6 frame)
  /\ 0 <= crc < 65536
  /\ nth 6 frame 0 + 256 * nth 7 frame 0 = crc
  /\ Forall is_byte frame
  /\ crc16 frame 8 = 0.
Proof.
  intros frame crc.
  set (head := [ uchar addr; 0x03; uchar (Z.shiftr reg 8); uchar (Z.land reg 0xFF);
                 0x00; 0x01 ]).
  assert (Hhead : Forall is_byte head).
  { unfold head. bytes. }
  assert (Hcrc : crc = crc16 head 6) by reflexivity.
  assert (Hr : 0 <= crc < 65536) by (rewrite Hcrc; apply crc16_range, Hhead).
  assert (Hlo : uchar (Z.land crc 0xFF) = crc mod 256).
  { unfold uchar. change 0xFF with (Z.ones 8). rewrite Z.land_ones by lia.
    change (2 ^ 8) with 256. apply Z.mod_mod. lia. }
  assert (Hhi : uchar (Z.land (Z.shiftr crc 8) 0xFF) = crc / 256).
  { unfold uchar. change 0xFF with (Z.ones 8). rewrite Z.land_ones by lia.
    rewrite Z.shiftr_div_pow2 by lia. change (2 ^ 8) with 256.
    rewrite Z.mod_mod by lia. apply Z.mod_small.
    split; [apply Z.div_pos; lia | apply Z.div_lt_upper_bound; lia]. }
  assert (Hframe : frame = head ++ [crc mod 256; crc / 256]).
  { unfold frame, request_frame. fold head. rewrite <- Hcrc, Hlo, Hhi. reflexivity. }
  assert (Hreg_hi : uchar (Z.shiftr reg 8) = (reg / 256) mod 256).
  { unfold uchar. rewrite Z.shiftr_div_pow2 by lia. reflexivity. }
  assert (Hreg_lo : uchar (Z.land reg 0xFF) = reg mod 256).
  { unfold uchar. change 0xFF with (Z.ones 8). rewrite Z.land_ones by lia.
    change (2 ^ 8) with 256. apply Z.mod_mod. lia. }
  split; [|split; [|split; [exact Hr|split; [|split]]]].
  - rewrite Hframe. unfold head. rewrite Hreg_hi, Hreg_lo. reflexivity.
  - rewrite Hframe. change (firstn 6 (head ++ [crc mod 256; crc / 256])) with head.
    rewrite Hcrc. apply (crc16_is_reference head Hhead). cbn [head length]. lia.
  - rewrite Hframe. unfold head. cbn [nth app].
    pose proof (Z.div_mod crc 256 ltac:(lia)). lia.
  - rewrite Hframe. apply Forall_app. split; [exact Hhead|].
    repeat apply List.Forall_cons; try apply List.Forall_nil; unfold is_byte.
    + apply Z.mod_pos_bound. lia.
    + split; [apply Z.div_pos; lia | apply Z.div_lt_upper_bound; lia].
  - rewrite Hframe.
    rewrite (crc16_fold (head ++ [crc mod 256; crc / 256]) 8) by lia.
    change (firstn (Z.to_nat 8) (head ++ [crc mod 256; crc / 256]))
      with (head ++ [crc mod 256; crc / 256]).
    rewrite Hcrc, (crc16_fold head 6) by lia.
    change (firstn (Z.to_nat 6) head) with head.
    apply fold_crc16_append_crc.
Qed.

(** C2, as stated, fails at its own test vector: the CRC of
    [01 03 00 00 00 01] does not have low byte 0x0A and high byte 0xC5. *)
Lemma crc16_vector_is_not_0A_C5 :
  let crc := crc16 [0x01; 0x03; 0x00; 0x00; 0x00; 0x01] 6 in
  ~ (Z.land crc 0xFF = 0x0A /\ Z.land (Z.shiftr crc 8) 0xFF = 0xC5).
Proof. vm_compute. intros [H _]. discriminate H. Qed.

(** C2, amended.  The length parameter of [crc16] is an [unsigned short].  On
    every byte sequence of fewer than 65536 bytes, passed with its length,
    [crc16] is the reference CRC-16/MODBUS of the sequence; with any length
    argument it is the reference CRC of the first [buffer_length mod 65536]
    bytes; and for [01 03 00 00 00 01] it returns 0x0A84: low byte 0x84 and
    high byte 0x0A, the trailer [84 0A] of that request. *)
Theorem crc16_standard (message : list Z) :
  Forall is_byte message ->
  Z.of_nat (length message) < 65536 ->
  crc16 message (Z.of_nat (length message)) = Reference.crc16_modbus message
  /\ (forall buffer_length : Z,
        crc16 message buffer_length
        = Reference.crc16_modbus
            (firstn (Z.to_nat (buffer_length mod 65536)) message))
  /\ crc16 [0x01; 0x03; 0x00; 0x00; 0x00; 0x01] 6 = 0x0A84
  /\ Z.land (crc16 [0x01; 0x03; 0x00; 0x00; 0x00; 0x01] 6) 0xFF = 0x84
  /\ Z.land (Z.shiftr (crc16 [0x01; 0x03; 0x00; 0x00; 0x00; 0x01] 6) 8) 0xFF = 0x0A.
Proof.
  intros Hm Hlen. split; [apply crc16_is_reference; assumption|].
  split; [intros n; apply crc16_is_reference_of_prefix, Hm|].
  repeat split; reflexivity.
Qed.

(** The published check value of CRC-16/MODBUS: the ASCII digits
    ["123456789"] have CRC 0x4B37. *)
Lemma crc16_standard_witness :
  Forall is_byte [49; 50; 51; 52; 53; 54; 55; 56; 57]
  /\ Z.of_nat (length [49; 50; 51; 52; 53; 54; 55; 56; 57]) < 65536
  /\ crc16 [49; 50; 51; 52; 53; 54; 55; 56; 57] 9
      = Reference.crc16_modbus [49; 50; 51; 52; 53; 54; 55; 56; 57]
  /\ crc16 [49; 50; 51; 52; 53; 54; 55; 56; 57] (65536 + 4)
      = Reference.crc16_modbus [49; 50; 51; 52].
Proof.
  assert (H : Forall is_byte [49; 50; 51; 52; 53; 54; 55; 56; 57]).
  { bytes. }
  assert (Hlen : Z.of_nat (length [49; 50; 51; 52; 53; 54; 55; 56; 57]) < 65536).
  { cbn [length]. lia. }
  split; [exact H|]. split; [exact Hlen|].
  pose proof (crc16_standard [49; 50; 51; 52; 53; 54; 55; 56; 57] H Hlen)
    as [Hwhole [Hprefix _]].
  split; [exact Hwhole|]. exact (Hprefix (65536 + 4)).
Defined.

(** The bound on the length is needed: of 65536 zero bytes, passed with the
    length 65536, [crc16] folds none and returns the initial register, which
    is not their reference CRC. *)
Example crc16_length_wraps :
  crc16 (repeat 0 (Z.to_nat 65536)) 65536 = 0xFFFF
  /\ Reference.crc16_modbus (repeat 0 (Z.to_nat 65536)) <> 0xFFFF.
Proof. split; [reflexivity|]. vm_compute. discriminate. Qed.

Example crc16_check_value :
  crc16 [49; 50; 51; 52; 53; 54; 55; 56; 57] 9 = 0x4B37.
Proof. reflexivity. Qed.

(** ** The response checks *)

(** The checks as a decision list: with seven bytes at hand the test
    [total_read < 5] of line 287 can no longer fire. *)
Lemma parse_response_cases (addr : Z) (response : list Z) :
  parse_response addr response =
    if Z.of_nat (length response) <? 7 then Failed ReadTimeout
    else if negb (nth 0 response 0 =? addr) || negb (nth 1 response 0 =? 0x03)
    then Failed InvalidResponse
    else if negb (nth 2 response 0 =? 2) then Failed InvalidDataLength
    else Decoded (ushort (Z.lor (Z.shiftl (nth 3 response 0) 8) (nth 4 response 0))).
Proof.
  unfold parse_response.
  destruct (Z.ltb_spec (Z.of_nat (length response)) 7) as [H|H]; [reflexivity|].
  destruct (Z.ltb_spec (Z.of_nat (length response)) 5) as [H5|H5]; [lia|].
  reflexivity.
Qed.

(** A value is decoded only from a response of at least seven bytes that
    echoes the address and the function code and announces two data bytes. *)
Lemma parse_response_decoded (addr : Z) (response : list Z) (raw : Z) :
  parse_response addr response = Decoded raw ->
  7 <= Z.of_nat (length response)
  /\ nth 0 response 0 = addr
  /\ nth 1 response 0 = 0x03
  /\ nth 2 response 0 = 2
  /\ raw = ushort (Z.lor (Z.shiftl (nth 3 response 0) 8) (nth 4 response 0)).
Proof.
  rewrite parse_response_cases.
  destruct (Z.ltb_spec (Z.of_nat (length response)) 7) as [H|H]; [discriminate|].
  destruct (Z.eqb_spec (nth 0 response 0) addr) as [H0|H0]; [|discriminate].
  destruct (Z.eqb_spec (nth 1 response 0) 0x03) as [H1|H1]; [|discriminate].
  destruct (Z.eqb_spec (nth 2 response 0) 2) as [H2|H2]; [|discriminate].
  cbn [negb orb]. intros [= <-]. auto.
Qed.

(** Two data bytes combine to the value they spell, high byte first. *)
Lemma lor_shiftl_bytes (hi lo : Z) :
  is_byte hi -> is_byte lo -> Z.lor (Z.shiftl hi 8) lo = 256 * hi + lo.
Proof.
  unfold is_byte. intros Hhi Hlo.
  rewrite Z.shiftl_mul_pow2 by lia. change (2 ^ 8) with 256.
  assert (Hland : Z.land (hi * 256) lo = 0).
  { apply Z.bits_inj'. intros n Hn. rewrite Z.land_spec, Z.bits_0.
    destruct (Z.lt_ge_cases n 8) as [Hlt|Hge].
    - change 256 with (2 ^ 8). rewrite Z.mul_pow2_bits_low by lia. reflexivity.
    - replace (Z.testbit lo n) with false; [apply andb_false_r|].
      symmetry. destruct (Z.eq_dec lo 0) as [->|Hz]; [apply Z.bits_0|].
      apply Z.bits_above_log2; [lia|].
      assert (Z.log2 lo < 8) by (apply Z.log2_lt_pow2; lia). lia. }
  rewrite <- Z.lxor_lor, <- Z.add_nocarry_lxor by exact Hland. lia.
Qed.

(** Two data bytes decode to the 16-bit value they spell, high byte first. *)
Lemma decode_big_endian (hi lo : Z) :
  is_byte hi -> is_byte lo -> ushort (Z.lor (Z.shiftl hi 8) lo) = 256 * hi + lo.
Proof.
  intros Hhi Hlo. rewrite lor_shiftl_bytes by assumption.
  unfold is_byte, ushort in *. apply Z.mod_small. lia.
Qed.

(** The two bytes of a 16-bit value, high byte first, spell it. *)
Lemma lor_big_endian (raw : Z) :
  0 <= raw < 65536 -> Z.lor (Z.shiftl (raw / 256) 8) (raw mod 256) = raw.
Proof.
  intros Hraw. rewrite lor_shiftl_bytes.
  - pose proof (Z.div_mod raw 256 ltac:(lia)). lia.
  - unfold is_byte. split; [apply Z.div_pos; lia | apply Z.div_lt_upper_bound; lia].
  - unfold is_byte. apply Z.mod_pos_bound. lia.
Qed.

(** Round trip for every slave and every 16-bit value: the reply that
    carries [raw] decodes to [raw], whatever its two CRC bytes. *)
Lemma parse_response_roundtrip (slave raw crc_lo crc_hi : Z) :
  0 <= raw < 65536 ->
  parse_response slave [slave; 0x03; 2; raw / 256; raw mod 256; crc_lo; crc_hi]
  = Decoded raw.
Proof.
  intros Hraw. rewrite parse_response_cases. cbn [length nth].
  change (Z.of_nat 7 <? 7) with false. cbv iota.
  rewrite Z.eqb_refl. cbn [negb orb Z.eqb Pos.eqb].
  f_equal. rewrite decode_big_endian.
  - pose proof (Z.div_mod raw 256 ltac:(lia)). lia.
  - unfold is_byte. split; [apply Z.div_pos; lia | apply Z.div_lt_upper_bound; lia].
  - unfold is_byte. apply Z.mod_pos_bound. lia.
Qed.

(** C3. The result of the response checks never depends on the CRC field:
    two responses of the same length that agree on every byte but bytes 5
    and 6 have the same outcome, the same error or the same decoded value,
    and hence the same returned [float] at either scale.  No CRC is
    recomputed and compared before the payload is accepted. *)
Theorem parse_response_ignores_crc (addr : Z) (r1 r2 : list Z) :
  length r1 = length r2 ->
  (forall i : nat, i <> 5%nat -> i <> 6%nat -> nth i r1 0 = nth i r2 0) ->
  parse_response addr r1 = parse_response addr r2
  /\ return_value 10 (parse_response addr r1) = return_value 10 (parse_response addr r2)
  /\ return_value 100 (parse_response addr r1) = return_value 100 (parse_response addr r2).
Proof.
  intros Hlen Hbytes.
  assert (Heq : parse_response addr r1 = parse_response addr r2).
  { unfold parse_response. rewrite Hlen.
    rewrite (Hbytes 0%nat), (Hbytes 1%nat), (Hbytes 2%nat), (Hbytes 3%nat),
      (Hbytes 4%nat) by lia.
    reflexivity. }
  rewrite Heq. auto.
Qed.

(** A reply with its right CRC and the same reply with the CRC bytes
    overwritten both decode to 250. *)
Lemma parse_response_ignores_crc_witness :
  length [1; 3; 2; 0; 250; 0x38; 0x07] = length [1; 3; 2; 0; 250; 0xDE; 0xAD]
  /\ (forall i : nat, i <> 5%nat -> i <> 6%nat ->
        nth i [1; 3; 2; 0; 250; 0x38; 0x07] 0 = nth i [1; 3; 2; 0; 250; 0xDE; 0xAD] 0)
  /\ (parse_response 1 [1; 3; 2; 0; 250; 0x38; 0x07]
      = parse_response 1 [1; 3; 2; 0; 250; 0xDE; 0xAD]
      /\ return_value 10 (parse_response 1 [1; 3; 2; 0; 250; 0x38; 0x07])
         = return_value 10 (parse_response 1 [1; 3; 2; 0; 250; 0xDE; 0xAD])
      /\ return_value 100 (parse_response 1 [1; 3; 2; 0; 250; 0x38; 0x07])
         = return_value 100 (parse_response 1 [1; 3; 2; 0; 250; 0xDE; 0xAD])).
Proof.
  assert (Hbytes : forall i : nat, i <> 5%nat -> i <> 6%nat ->
            nth i [1; 3; 2; 0; 250; 0x38; 0x07] 0 = nth i [1; 3; 2; 0; 250; 0xDE; 0xAD] 0).
  { intros i H5 H6.
    do 5 (destruct i as [|i]; [reflexivity|]).
    destruct i as [|i]; [contradiction|].
    destruct i as [|i]; [contradiction|].
    destruct i; reflexivity. }
  split; [reflexivity|]. split; [exact Hbytes|].
  exact (parse_response_ignores_crc 1 [1; 3; 2; 0; 250; 0x38; 0x07]
           [1; 3; 2; 0; 250; 0xDE; 0xAD] eq_refl Hbytes).
Defined.

(** C4, as stated, fails on six received bytes that carry a foreign address:
    the claimed order passes the length check (6 >= 5) and reports
    UnexpectedEcho, while the source stops at its first check and reports the
    read failure; so does a whole sensor read on a line that delivers these
    six bytes and falls silent. *)
Lemma validation_order_counterexample :
  Spec.parse_register_response [9; 3; 2; 0; 250; 0] 1 0x03 = inl Spec.UnexpectedEcho
  /\ parse_response 1 [9; 3; 2; 0; 250; 0] = Failed ReadTimeout
  /\ parse_response 1 [9; 3; 2; 0; 250; 0]
     <> Spec.outcome_of (Spec.parse_register_response [9; 3; 2; 0; 250; 0] 1 0x03)
  /\ fst <$> read_sensor 101 "COM3" 1 0 six_bytes_then_silence = Some (Failed ReadTimeout).
Proof.
  split; [reflexivity|]. split; [reflexivity|]. split; [discriminate|].
  vm_compute. reflexivity.
Qed.

(** C4, amended.  The first check is on the accumulated length, which must
    be at least 7 or the read fails as incomplete; from there on the outcome
    is that of the steps in the stated order: the echo check, then the data
    length check (a length below 5 and a byte count other than 2 share one
    failure, and the former cannot arise any more), then the decoding. *)
Theorem parse_response_order (addr : Z) (response : list Z) :
  parse_response addr response =
    (if Z.of_nat (length response) <? 7 then Failed ReadTimeout
     else Spec.outcome_of (Spec.parse_register_response response addr 0x03))
  /\ parse_response addr response =
    (if Z.of_nat (length response) <? 7 then Failed ReadTimeout
     else if negb (nth 0 response 0 =? addr) || negb (nth 1 response 0 =? 0x03)
     then Failed InvalidResponse
     else if negb (nth 2 response 0 =? 2) then Failed InvalidDataLength
     else Decoded (ushort (Z.lor (Z.shiftl (nth 3 response 0) 8) (nth 4 response 0)))).
Proof.
  split; [|apply parse_response_cases].
  rewrite parse_response_cases. unfold Spec.parse_register_response.
  destruct (Z.ltb_spec (Z.of_nat (length response)) 7) as [H|H]; [reflexivity|].
  destruct (Z.ltb_spec (Z.of_nat (length response)) 5) as [H5|H5]; [lia|].
  destruct (negb (nth 0 response 0 =? addr) || negb (nth 1 response 0 =? 0x03));
    [reflexivity|].
  destruct (negb (nth 2 response 0 =? 2)); reflexivity.
Qed.

(** C5, as stated, fails on a reply that is cut short: of three received
    bytes the first differs from the requested address, and the read fails
    as incomplete (the report of the time-out), not with the echo failure;
    so does a whole sensor read on a line that delivers these three bytes
    and falls silent. *)
Lemma echo_mismatch_short_counterexample :
  nth 0 [9; 3; 2] 0 <> 1
  /\ parse_response 1 [9; 3; 2] = Failed (Spec.failure_of Spec.IncompleteResponse)
  /\ parse_response 1 [9; 3; 2] <> Failed (Spec.failure_of Spec.UnexpectedEcho)
  /\ fst <$> read_sensor 101 "COM3" 1 0 three_bytes_then_silence
     = Some (Failed ReadTimeout).
Proof.
  split; [discriminate|]. split; [reflexivity|]. split; [discriminate|].
  vm_compute. reflexivity.
Qed.

(** C5, amended.  A response is accepted only if it has at least seven
    bytes, its first byte is the requested slave address and its second byte
    is the function code 0x03.  When its first byte differs from the
    requested address no value is decoded and [-1.0f] is returned; the
    failure is the echo failure when at least seven bytes were received, and
    the incomplete read otherwise. *)
Theorem echo_mismatch_rejected (addr : Z) (response : list Z) :
  (forall raw, parse_response addr response = Decoded raw ->
     7 <= Z.of_nat (length response)
     /\ nth 0 response 0 = addr /\ nth 1 response 0 = 0x03)
  /\ (nth 0 response 0 <> addr ->
      (7 <= Z.of_nat (length response) ->
       parse_response addr response = Failed InvalidResponse)
      /\ (Z.of_nat (length response) < 7 ->
          parse_response addr response = Failed ReadTimeout)
      /\ (forall raw, parse_response addr response <> Decoded raw)
      /\ return_value 10 (parse_response addr response) = float_of_int (-1)
      /\ return_value 100 (parse_response addr response) = float_of_int (-1)).
Proof.
  split.
  - intros raw Hraw.
    destruct (parse_response_decoded addr response raw Hraw) as (H7 & H0 & H1 & _).
    auto.
  - intros Hne.
    assert (Hfail : parse_response addr response
                    = if Z.of_nat (length response) <? 7 then Failed ReadTimeout
                      else Failed InvalidResponse).
    { rewrite parse_response_cases.
      destruct (Z.of_nat (length response) <? 7); [reflexivity|].
      destruct (Z.eqb_spec (nth 0 response 0) addr) as [H0|H0]; [contradiction|].
      reflexivity. }
    rewrite Hfail.
    destruct (Z.ltb_spec (Z.of_nat (length response)) 7) as [H|H];
      (split; [intros; first [reflexivity | lia]|]);
      (split; [intros; first [reflexivity | lia]|]);
      (split; [intros raw; discriminate|]); split; reflexivity.
Qed.

(** A seven-byte reply from slave 9 to a request for slave 1. *)
Lemma echo_mismatch_rejected_witness :
  nth 0 [9; 3; 2; 0; 250; 0xD9; 0xC6] 0 <> 1
  /\ 7 <= Z.of_nat (length [9; 3; 2; 0; 250; 0xD9; 0xC6])
  /\ parse_response 1 [9; 3; 2; 0; 250; 0xD9; 0xC6] = Failed InvalidResponse
  /\ (forall raw, parse_response 1 [9; 3; 2; 0; 250; 0xD9; 0xC6] <> Decoded raw)
  /\ return_value 10 (parse_response 1 [9; 3; 2; 0; 250; 0xD9; 0xC6])
     = float_of_int (-1)
  /\ return_value 100 (parse_response 1 [9; 3; 2; 0; 250; 0xD9; 0xC6])
     = float_of_int (-1).
Proof.
  assert (Hne : nth 0 [9; 3; 2; 0; 250; 0xD9; 0xC6] 0 <> 1)
    by (cbn [nth]; lia).
  assert (Hlen : 7 <= Z.of_nat (length [9; 3; 2; 0; 250; 0xD9; 0xC6]))
    by (cbn [length]; lia).
  split; [exact Hne|]. split; [exact Hlen|].
  destruct (echo_mismatch_rejected 1 [9; 3; 2; 0; 250; 0xD9; 0xC6])
    as [_ Hreject].
  destruct (Hreject Hne) as (Hlong & _ & Hnone & Ht & Hp).
  split; [exact (Hlong Hlen)|]. split; [exact Hnone|]. split; [exact Ht | exact Hp].
Defined.

(** C6. Parsing round-trips with the construction of a reply: for every
    slave and every 16-bit value [raw], the synthetic valid reply
    [slave, 0x03, 2, raw_hi, raw_lo, crc_lo, crc_hi] decodes to
    [(response[3] << 8) | response[4] = raw], whatever its CRC bytes, and the
    sensor functions return [raw / 10.0f] and [raw / 100.0f] for it.  In
    particular the reply [1, 0x03, 2, 0x00, 0xFA, crc_lo, crc_hi] of slave 1
    decodes to 250 and the temperature function returns [250 / 10.0f = 25.0f]
    for it, with the CRC bytes a device would send as with any others. *)
Theorem parse_roundtrip (slave raw crc_lo crc_hi : Z) :
  0 <= raw < 65536 ->
  let response := [slave; 0x03; 2; raw / 256; raw mod 256; crc_lo; crc_hi] in
  let reply_250 := [1; 0x03; 2; 0x00; 0xFA; crc_lo; crc_hi] in
  let crc := crc16 [1; 0x03; 2; 0x00; 0xFA] 5 in
  parse_response slave response = Decoded raw
  /\ Z.lor (Z.shiftl (nth 3 response 0) 8) (nth 4 response 0) = raw
  /\ return_value 10 (parse_response slave response)
     = float_div (float_of_int raw) (float_of_int 10)
  /\ return_value 100 (parse_response slave response)
     = float_div (float_of_int raw) (float_of_int 100)
  /\ parse_response 1 reply_250 = Decoded 250
  /\ Z.lor (Z.shiftl (nth 3 reply_250 0) 8) (nth 4 reply_250 0) = 250
  /\ return_value 10 (parse_response 1 reply_250) = float_of_int 25
  /\ float_of_int 25 = S754_finite false 13107200 (-19)
  /\ parse_response 1 [1; 0x03; 2; 0x00; 0xFA; crc mod 256; crc / 256] = Decoded 250.
Proof.
  intros Hraw response reply_250 crc.
  assert (H : parse_response slave response = Decoded raw)
    by exact (parse_response_roundtrip slave raw crc_lo crc_hi Hraw).
  assert (H250 : forall lo hi,
            parse_response 1 [1; 0x03; 2; 0x00; 0xFA; lo; hi] = Decoded 250).
  { intros lo hi.
    assert (Hr : 0 <= 250 < 65536) by lia.
    exact (parse_response_roundtrip 1 250 lo hi Hr). }
  unfold reply_250. rewrite H, !H250.
  split; [reflexivity|].
  split; [unfold response; cbn [nth]; apply lor_big_endian, Hraw|].
  repeat split; reflexivity.
Qed.

(** The reply of slave 17 that carries 0x1234, with stray CRC bytes. *)
Lemma parse_roundtrip_witness :
  0 <= 0x1234 < 65536
  /\ parse_response 17 [17; 0x03; 2; 0x12; 0x34; 0xAA; 0xBB] = Decoded 0x1234
  /\ Z.lor (Z.shiftl (nth 3 [17; 0x03; 2; 0x12; 0x34; 0xAA; 0xBB] 0) 8)
       (nth 4 [17; 0x03; 2; 0x12; 0x34; 0xAA; 0xBB] 0) = 0x1234
  /\ return_value 10 (parse_response 17 [17; 0x03; 2; 0x12; 0x34; 0xAA; 0xBB])
     = float_div (float_of_int 0x1234) (float_of_int 10)
  /\ return_value 100 (parse_response 17 [17; 0x03; 2; 0x12; 0x34; 0xAA; 0xBB])
     = float_div (float_of_int 0x1234) (float_of_int 100).
Proof.
  assert (Hraw : 0 <= 0x1234 < 65536) by lia.
  split; [exact Hraw|].
  destruct (parse_roundtrip 17 0x1234 0xAA 0xBB Hraw)
    as (Hparse & Hbytes & Ht & Hp & _).
  split; [exact Hparse|]. split; [exact Hbytes|]. split; [exact Ht | exact Hp].
Defined.

(** The same reply through the whole temperature function: the request goes
    out, the reply arrives in two reads, and [25.0f] comes back. *)
Example read_temperature_25 :
  fst <$> modbus_read_temperature 101 "COM3" 1 0
            (quiet_world [ {| ev_ok := true; ev_data := [1; 3; 2]; ev_wait := 20 |};
                           {| ev_ok := true; ev_data := [0; 250; 0x38; 0x07]; ev_wait := 5 |} ])
  = Some (float_of_int 25).
Proof. vm_compute. reflexivity. Qed.

(** ** The response loop *)

Lemma dword_sub (a b : Z) : dword (dword a - dword b) = dword (a - b).
Proof. unfold dword. symmetry. apply Zminus_mod. Qed.

Lemma dword_small (x : Z) : 0 <= x < 2 ^ 32 -> dword x = x.
Proof. intros H. unfold dword. apply Z.mod_small, H. Qed.

Section ResponseLoop.

(** [B] bounds the time one [ReadFile] blocks; it is small enough for one turn
    of the loop not to wrap the 32-bit tick counter around. *)
Variable B : Z.
Hypothesis B_range : 0 <= B <= 2 ^ 32 - 1010.

Lemma ReadFile_tame (h n : Z) (w w1 : world) (ok : bool) (data : list Z) :
  tame B w -> 0 <= n ->
  ReadFile h n w = (ok, data, w1) ->
  tame B w1
  /\ clock w <= clock w1 <= clock w + B
  /\ Z.of_nat (length data) <= n
  /\ Forall is_byte data.
Proof.
  unfold tame, ReadFile. intros Ht Hn.
  destruct (line w) as [|e rest] eqn:Hline.
  - intros [= <- <- <-]. rewrite Hline. cbn [length].
    repeat split; try lia; constructor.
  - inversion Ht as [|? ? He Hrest]; subst.
    destruct (ev_ok e); intros [= <- <- <-]; cbn [line clock set_line set_clock length].
    + repeat split; try lia; [exact Hrest| |].
      * rewrite length_map, length_take. lia.
      * apply Forall_forall. intros x Hx. apply list_elem_of_In, in_map_iff in Hx.
        destruct Hx as (y & <- & _). unfold is_byte, uchar. apply Z.mod_pos_bound. lia.
    + repeat split; try lia; [exact Hrest | constructor].
Qed.

Lemma Sleep_tame (ms : Z) (w : world) : tame B w -> tame B (Sleep ms w).
Proof. intros H. exact H. Qed.

(** The loop leaves, within the fuel that the deadline allows, in one of two
    ways: on the deadline with fewer than seven bytes, or by the [break] on
    the read that brought the seventh byte. *)
Lemma read_loop_exit :
  forall (fuel : nat) (h c0 : Z) (response : list Z) (w : world),
    tame B w ->
    0 <= clock w - c0 < 2 ^ 32 ->
    Z.of_nat (length response) < 7 ->
    (1 <= fuel)%nat ->
    1000 - (clock w - c0) <= 10 * (Z.of_nat fuel - 1) ->
    exists response' w',
      read_loop fuel h (dword c0) response w = Some (response', w')
      /\ Z.of_nat (length response') <= 256
      /\ clock w <= clock w'
      /\ clock w' - c0 <= Z.max (clock w - c0) (1000 + B + 9)
      /\ (Z.of_nat (length response') < 7 /\ 1000 <= clock w' - c0
          \/ 7 <= Z.of_nat (length response')
             /\ exists prefix data,
                  response' = prefix ++ data /\ Z.of_nat (length prefix) < 7).
Proof.
  induction fuel as [|fuel IH]; intros h c0 response w Ht He Hlen Hf Hm; [lia|].
  cbn [read_loop].
  destruct (Z.ltb_spec (Z.of_nat (length response)) 256) as [_|Hbig]; [|lia].
  cbn [negb]. unfold GetTickCount. rewrite dword_sub, (dword_small _ He).
  destruct (Z.ltb_spec (clock w - c0) 1000) as [Hlt|Hge]; cbn [negb].
  2:{ exists response, w. split; [reflexivity|]. repeat split; try lia. }
  destruct (ReadFile h (256 - Z.of_nat (length response)) w) as [[ok data] w1] eqn:Hrf.
  assert (Hroom : 0 <= 256 - Z.of_nat (length response)) by lia.
  destruct (ReadFile_tame h _ w w1 ok data Ht Hroom Hrf) as (Ht1 & Hclk & Hdata & _).
  assert (Hrec : forall r, Z.of_nat (length r) < 7 ->
    exists response' w',
      read_loop fuel h (dword c0) r (Sleep 10 w1) = Some (response', w')
      /\ Z.of_nat (length response') <= 256
      /\ clock w <= clock w'
      /\ clock w' - c0 <= Z.max (clock w - c0) (1000 + B + 9)
      /\ (Z.of_nat (length response') < 7 /\ 1000 <= clock w' - c0
          \/ 7 <= Z.of_nat (length response')
             /\ exists prefix data,
                  response' = prefix ++ data /\ Z.of_nat (length prefix) < 7)).
  { intros r Hr.
    assert (Hc : clock (Sleep 10 w1) = clock w1 + 10) by reflexivity.
    destruct (IH h c0 r (Sleep 10 w1) (Sleep_tame 10 w1 Ht1))
      as (r' & w' & Hrun & H1 & H2 & H3 & H4);
      try (rewrite ?Hc; lia).
    exists r', w'. split; [exact Hrun|]. rewrite Hc in *. repeat split; try lia.
    exact H4. }
  destruct ok; [|apply Hrec, Hlen].
  destruct (Z.ltb_spec 0 (Z.of_nat (length data))) as [Hpos|Hzero]; [|apply Hrec, Hlen].
  destruct (Z.leb_spec 7 (Z.of_nat (length (response ++ data)))) as [H7|H7];
    [|apply Hrec, H7].
  exists (response ++ data), w1. split; [reflexivity|].
  rewrite length_app, Nat2Z.inj_add in *.
  repeat split; try lia.
  right. split; [lia|]. exists response, data. split; [reflexivity | lia].
Qed.

(** *** What the loop consumed, and when it left *)

Lemma accumulate_app (a b : list read_event) (r : list Z) :
  accumulate (a ++ b) r = accumulate b (accumulate a r).
Proof. revert r. induction a as [|e a IH]; intros r; [reflexivity|]. cbn [app accumulate]. apply IH. Qed.

Lemma ReadFile_received (h n : Z) (w w1 : world) (ok : bool) (data : list Z) :
  ReadFile h n w = (ok, data, w1) ->
  (line w = [] /\ ok = true /\ data = [] /\ w1 = w)
  \/ exists e,
       line w = e :: line w1
       /\ clock w1 = clock w + ev_wait e
       /\ (if ok then data else []) = received n e.
Proof.
  unfold ReadFile, received. destruct (line w) as [|e rest] eqn:Hline.
  - intros [= <- <- <-]. left. auto.
  - intros Hrf. right. exists e.
    destruct (ev_ok e); injection Hrf as <- <- <-;
      cbn [line clock set_line set_clock]; auto.
Qed.

(** The loop reads the line in order and leaves on the very read that brings
    the accumulated length to 7: no pause and no read follows it. *)
Lemma read_loop_trace :
  forall (fuel : nat) (h start_time : Z) (r0 : list Z) (w0 : world)
         (response : list Z) (w' : world),
    read_loop fuel h start_time r0 w0 = Some (response, w') ->
    Z.of_nat (length r0) < 7 ->
    exists consumed,
      line w0 = consumed ++ line w'
      /\ response = accumulate consumed r0
      /\ (7 <= Z.of_nat (length response) ->
          exists init last,
            consumed = init ++ [last]
            /\ Z.of_nat (length (accumulate init r0)) < 7
            /\ clock w' = clock w0 + total_wait consumed
                          + 10 * Z.of_nat (length init)).
Proof.
  induction fuel as [|fuel IH]; intros h start_time r0 w0 response w' Hrun Hlen;
    [discriminate|].
  cbn [read_loop] in Hrun.
  destruct (negb (Z.of_nat (length r0) <? 256)).
  { injection Hrun as <- <-. exists []. repeat split. lia. }
  destruct (negb (dword (GetTickCount w0 - start_time) <? 1000)).
  { injection Hrun as <- <-. exists []. repeat split. lia. }
  destruct (ReadFile h (256 - Z.of_nat (length r0)) w0) as [[ok data] w1] eqn:Hrf.
  apply ReadFile_received in Hrf.
  destruct Hrf as [(Hline & -> & -> & ->) | (e & Hline & Hclk & Hdata)].
  - (* a silent line stays silent *)
    cbn [length] in Hrun. change (0 <? Z.of_nat 0) with false in Hrun. cbv iota in Hrun.
    destruct (IH _ _ _ _ _ _ Hrun Hlen) as (consumed & Hl & Hr & _).
    cbn [Sleep line set_clock] in Hl. rewrite Hline in Hl.
    destruct consumed as [|x consumed]; [|discriminate].
    exists []. split; [rewrite Hline; exact Hl|]. split; [exact Hr|].
    cbn [accumulate] in Hr. subst response. lia.
  - assert (Hstep : forall r1,
      r1 = r0 ++ received (256 - Z.of_nat (length r0)) e ->
      Z.of_nat (length r1) < 7 ->
      read_loop fuel h start_time r1 (Sleep 10 w1) = Some (response, w') ->
      exists consumed,
        line w0 = consumed ++ line w'
        /\ response = accumulate consumed r0
        /\ (7 <= Z.of_nat (length response) ->
            exists init last,
              consumed = init ++ [last]
              /\ Z.of_nat (length (accumulate init r0)) < 7
              /\ clock w' = clock w0 + total_wait consumed
                            + 10 * Z.of_nat (length init))).
    { intros r1 Hr1 Hlen1 Hrec.
      destruct (IH _ _ _ _ _ _ Hrec Hlen1) as (consumed & Hl & Hr & H7).
      cbn [Sleep line set_clock] in Hl.
      exists (e :: consumed). split; [rewrite Hline, Hl; reflexivity|].
      split; [cbn [accumulate]; rewrite <- Hr1; exact Hr|].
      intros Hfull. destruct (H7 Hfull) as (init & last & Hc & Hi & Hclock).
      exists (e :: init), last. split; [rewrite Hc; reflexivity|].
      split; [cbn [accumulate]; rewrite <- Hr1; exact Hi|].
      rewrite Hclock. cbn [Sleep clock set_clock]. rewrite Hclk.
      unfold total_wait. cbn [fold_right length]. lia. }
    destruct ok.
    + destruct (Z.ltb_spec 0 (Z.of_nat (length data))) as [Hpos|Hzero].
      * destruct (Z.leb_spec 7 (Z.of_nat (length (r0 ++ data)))) as [H7|H7].
        -- injection Hrun as <- <-. exists [e].
           split; [exact Hline|].
           split; [cbn [accumulate]; rewrite Hdata; reflexivity|].
           intros _. exists [], e. split; [reflexivity|].
           split; [exact Hlen|].
           rewrite Hclk. unfold total_wait. cbn [fold_right length]. lia.
        -- apply (Hstep (r0 ++ data)); [rewrite Hdata; reflexivity | exact H7 | exact Hrun].
      * assert (data = []) as -> by (destruct data; [reflexivity | cbn [length] in Hzero; lia]).
        apply (Hstep r0); [rewrite <- Hdata, app_nil_r; reflexivity | exact Hlen | exact Hrun].
    + apply (Hstep r0); [rewrite <- Hdata, app_nil_r; reflexivity | exact Hlen | exact Hrun].
Qed.


(** With that fuel the sensor functions return on every tame world. *)
Lemma read_sensor_returns (fuel : nat) (dev : string) (addr reg : Z) (w : world) :
  tame B w -> (101 <= fuel)%nat ->
  exists o w', read_sensor fuel dev addr reg w = Some (o, w').
Proof.
  intros Ht Hfuel. unfold read_sensor.
  destruct (CreateFileA (port_name dev) w) as [hS w1] eqn:Hc.
  assert (Ht1 : tame B w1).
  { unfold CreateFileA in Hc. destruct (create_ok (os w)); injection Hc as <- <-; exact Ht. }
  destruct (hS =? INVALID_HANDLE_VALUE); [eauto|].
  destruct (negb (GetCommState hS w1)); [eauto|].
  destruct (negb (SetCommState hS w1)); [eauto|].
  destruct (negb (SetCommTimeouts hS w1)); [eauto|].
  destruct (WriteFile hS (request_frame addr reg) 8 (PurgeComm hS w1)) as [[ok n] w2] eqn:Hw.
  assert (Ht2 : tame B w2).
  { unfold WriteFile, PurgeComm in Hw. destruct (write_ok (os w1)); injection Hw as <- <- <-; exact Ht1. }
  destruct (negb ok || negb (n =? 8)); [eauto|].
  destruct (read_loop_exit fuel hS (clock (Sleep 100 w2)) [] (Sleep 100 w2)
              (Sleep_tame 100 w2 Ht2))
    as (response & w' & Hrun & _); try (cbn [length]; lia).
  unfold GetTickCount. rewrite Hrun. eauto.
Qed.

End ResponseLoop.


(** The two ways out, run: the reply in two reads comes back after 35 ms with
    the stray byte still on the line; a silent line is given up after the
    1000 ms. *)
Example read_loop_runs :
  read_loop 101 1 0 [] reply_in_two_reads
  = Some ([1; 3; 2; 0; 250; 0x38; 0x07],
          set_clock 35
            (quiet_world [ {| ev_ok := true; ev_data := [99]; ev_wait := 5 |} ]))
  /\ read_loop 101 1 0 [] (quiet_world [])
     = Some ([], set_clock 1000 (quiet_world [])).
Proof. split; vm_compute; reflexivity. Qed.

(** ** What the sensor functions put on the wire *)

Lemma ReadFile_wire (h n : Z) (w : world) :
  wire (snd (ReadFile h n w)) = wire w.
Proof.
  unfold ReadFile. destruct (line w) as [|e rest]; [reflexivity|].
  destruct (ev_ok e); reflexivity.
Qed.

Lemma read_loop_wire (fuel : nat) (h start_time : Z) (response response' : list Z)
    (w w' : world) :
  read_loop fuel h start_time response w = Some (response', w') -> wire w' = wire w.
Proof.
  revert response w. induction fuel as [|fuel IH]; intros response w; [discriminate|].
  cbn [read_loop].
  destruct (negb (Z.of_nat (length response) <? 256)); [intros [= _ <-]; reflexivity|].
  destruct (negb (dword (GetTickCount w - start_time) <? 1000));
    [intros [= _ <-]; reflexivity|].
  pose proof (ReadFile_wire h (256 - Z.of_nat (length response)) w) as Hrf.
  destruct (ReadFile h (256 - Z.of_nat (length response)) w) as [[ok data] w1].
  cbn [snd] in Hrf.
  assert (Hrec : forall r, read_loop fuel h start_time r (Sleep 10 w1) = Some (response', w')
                           -> wire w' = wire w).
  { intros r Hr. rewrite (IH _ _ Hr). exact Hrf. }
  destruct ok; [|apply Hrec].
  destruct (0 <? Z.of_nat (length data)); [|apply Hrec].
  destruct (7 <=? Z.of_nat (length (response ++ data))); [|apply Hrec].
  intros [= _ <-]. exact Hrf.
Qed.

(** A sensor read writes nothing, or once: the request frame of its address
    and register, cut to what the driver took. *)
Lemma read_sensor_wire (fuel : nat) (dev : string) (addr reg : Z) (w w' : world)
    (o : outcome) :
  read_sensor fuel dev addr reg w = Some (o, w') ->
  wire w' = wire w
  \/ exists k, wire w' = firstn k (request_frame addr reg) :: wire w.
Proof.
  unfold read_sensor, CreateFileA.
  destruct (create_ok (os w)).
  2:{ rewrite Z.eqb_refl. intros [= _ <-]. left. reflexivity. }
  set (hS := fresh _). set (w1 := set_handles _ w).
  assert (Hw1 : wire w1 = wire w) by reflexivity.
  destruct (hS =? INVALID_HANDLE_VALUE); [intros [= _ <-]; left; exact Hw1|].
  destruct (negb (GetCommState hS w1)); [intros [= _ <-]; left; exact Hw1|].
  destruct (negb (SetCommState hS w1)); [intros [= _ <-]; left; exact Hw1|].
  destruct (negb (SetCommTimeouts hS w1)); [intros [= _ <-]; left; exact Hw1|].
  unfold PurgeComm, WriteFile.
  destruct (write_ok (os w1)).
  - set (sent := firstn _ (request_frame addr reg)).
    set (w2 := set_wire _ w1).
    assert (Hw2 : wire w2 = sent :: wire w) by (unfold w2; cbn [wire set_wire]; congruence).
    destruct (negb true || negb (Z.of_nat (length sent) =? 8));
      [intros [= _ <-]; right; exists (Z.to_nat (Z.min 8 (write_count (os w1)))); exact Hw2|].
    destruct (read_loop fuel hS (GetTickCount (Sleep 100 w2)) [] (Sleep 100 w2))
      as [[response w3]|] eqn:Hloop; [|discriminate].
    intros [= _ <-]. right. exists (Z.to_nat (Z.min 8 (write_count (os w1)))).
    cbn [CloseHandle wire set_handles].
    rewrite (read_loop_wire _ _ _ _ _ _ _ Hloop). exact Hw2.
  - cbn [negb orb]. intros [= _ <-]. left. exact Hw1.
Qed.

(** ** Register sessions *)

Lemma connect_result (dev : string) (baud slave_id : Z) (w : world) :
  match hal_modbus_connect dev baud slave_id w with
  | (NULL, _) => True
  | (Ptr b, w') =>
      exists c, heap w' !! b = Some c /\ connected c = 1
                /\ hSerial c ∈ handles w'
                /\ hSerial c <> 0 /\ hSerial c <> INVALID_HANDLE_VALUE
  end.
Proof.
  unfold hal_modbus_connect.
  destruct (malloc_ok w); cbn [negb]; [|exact I].
  unfold CreateFileA. cbn [os handles set_heap].
  destruct (create_ok (os w)) eqn:Hc; [|exact I].
  set (hs := {[0; INVALID_HANDLE_VALUE]} ∪ handles w).
  assert (Hfresh : fresh hs ∉ hs) by apply is_fresh.
  destruct (Z.eqb_spec (fresh hs) INVALID_HANDLE_VALUE) as [Hinv|Hinv]; [exact I|].
  unfold GetCommState, SetCommState, SetCommTimeouts. cbn [os set_handles set_heap].
  destruct (get_state_ok (os w)); [|exact I].
  destruct (set_state_ok (os w)); [|exact I].
  destruct (set_timeouts_ok (os w)); [|exact I].
  cbn [negb]. eexists. cbn [heap set_heap set_handles handles].
  split; [apply lookup_insert_eq|]. cbn [connected hSerial].
  split; [reflexivity|]. split; [set_solver|].
  split; [|exact Hinv]. intros H0. apply Hfresh. rewrite H0. set_solver.
Qed.




(** C8, as stated, fails after disconnect: the context was freed, so that
    through the handle of a session that was connected and then disconnected
    the two functions read freed memory instead of answering -1. *)
Lemma guard_after_disconnect_counterexample :
  hal_modbus_connect "COM3" 9600 1 (quiet_world []) = (Ptr 1, connected_world)
  /\ hal_modbus_disconnect (Ptr 1) connected_world = Done tt disconnected_world
  /\ hal_modbus_write_register (Ptr 1) 0x10 7 disconnected_world
     = Undefined UseAfterFree
  /\ hal_modbus_write_register (Ptr 1) 0x10 7 disconnected_world
     <> Done (-1) disconnected_world
  /\ hal_modbus_read_registers msvc_rand (Ptr 1) 0x10 2 (Some [0; 0])
       disconnected_world
     = Undefined UseAfterFree
  /\ hal_modbus_read_registers msvc_rand (Ptr 1) 0x10 2 (Some [0; 0])
       disconnected_world
     <> Done (-1, Some [0; 0]) disconnected_world.
Proof.
  assert (Hw : hal_modbus_write_register (Ptr 1) 0x10 7 disconnected_world
               = Undefined UseAfterFree) by (vm_compute; reflexivity).
  assert (Hr : hal_modbus_read_registers msvc_rand (Ptr 1) 0x10 2 (Some [0; 0])
                 disconnected_world
               = Undefined UseAfterFree) by (vm_compute; reflexivity).
  split; [vm_compute; reflexivity|]. split; [vm_compute; reflexivity|].
  split; [exact Hw|]. split; [rewrite Hw; discriminate|].
  split; [exact Hr|]. rewrite Hr. discriminate.
Qed.

(** C8, amended.  For a session handle that is [NULL] or points to a live
    context that is not Open ([connected == 0]),
    [hal_modbus_read_registers] and [hal_modbus_write_register] return -1
    and change nothing; on an Open session [hal_modbus_write_register]
    returns 0 and leaves the world as it was: no frame is put on the wire (no
    call into the driver at all).  Through a handle whose context is no
    longer live, as after [hal_modbus_disconnect], both calls are undefined
    behaviour. *)
Theorem session_guard (P : prng) (ctx : ptr) (addr value num : Z)
    (dest : option (list Z)) (w : world) :
  (forall open : bool,
     session_open ctx w = Some open ->
     hal_modbus_write_register ctx addr value w = Done (if open then 0 else -1) w
     /\ (forall w', hal_modbus_write_register ctx addr value w
                    = Done (if open then 0 else -1) w' -> wire w' = wire w)
     /\ (open = false ->
         hal_modbus_read_registers P ctx addr num dest w = Done (-1, dest) w))
  /\ (session_open ctx w = None ->
      hal_modbus_write_register ctx addr value w = Undefined UseAfterFree
      /\ hal_modbus_read_registers P ctx addr num dest w = Undefined UseAfterFree).
Proof.
  unfold session_open, hal_modbus_write_register, hal_modbus_read_registers.
  destruct ctx as [|b].
  - split; [|discriminate].
    intros open [= <-]. repeat split. intros w' [= <-]. reflexivity.
  - destruct (heap w !! b) as [c|].
    + split; [|discriminate].
      intros open [= <-]. destruct (connected c =? 0); cbn [negb].
      * repeat split. intros w' [= <-]. reflexivity.
      * repeat split; [|discriminate]. intros w' [= <-]. reflexivity.
    + split; [discriminate|]. intros _. split; reflexivity.
Qed.

(** A context that was never connected: both calls answer -1.  The handle of
    a session that was disconnected: both calls are undefined. *)
Lemma session_guard_witness :
  session_open (Ptr 1) idle_world = Some false
  /\ session_open (Ptr 1) disconnected_world = None
  /\ hal_modbus_write_register (Ptr 1) 0x10 7 idle_world = Done (-1) idle_world
  /\ hal_modbus_read_registers msvc_rand (Ptr 1) 0x10 2 (Some [0; 0]) idle_world
     = Done (-1, Some [0; 0]) idle_world
  /\ hal_modbus_write_register (Ptr 1) 0x10 7 disconnected_world
     = Undefined UseAfterFree
  /\ hal_modbus_read_registers msvc_rand (Ptr 1) 0x10 2 (Some [0; 0])
       disconnected_world
     = Undefined UseAfterFree.
Proof.
  assert (Hidle : session_open (Ptr 1) idle_world = Some false)
    by (vm_compute; reflexivity).
  assert (Hgone : session_open (Ptr 1) disconnected_world = None)
    by (vm_compute; reflexivity).
  split; [exact Hidle|]. split; [exact Hgone|].
  destruct (session_guard msvc_rand (Ptr 1) 0x10 7 2 (Some [0; 0]) idle_world)
    as [Hlive _].
  destruct (Hlive false Hidle) as (Hwrite & _ & Hread).
  destruct (session_guard msvc_rand (Ptr 1) 0x10 7 2 (Some [0; 0]) disconnected_world)
    as [_ Hdangling].
  destruct (Hdangling Hgone) as [Hw Hr].
  split; [exact Hwrite|]. split; [exact (Hread eq_refl)|].
  split; [exact Hw | exact Hr].
Defined.

(** On the session that [hal_modbus_connect] returns, a write answers 0 and
    the wire stays empty. *)
Example write_register_is_silent :
  session_open (Ptr 1) connected_world = Some true
  /\ hal_modbus_write_register (Ptr 1) 0x10 7 connected_world = Done 0 connected_world
  /\ wire connected_world = [].
Proof. vm_compute. repeat split. Qed.

(** ** Simulated register reads *)

Lemma simulated_value_range (r : Z) :
  0 <= r -> 1000 <= ushort (Z.rem r 4000 + 1000) <= 4999.
Proof.
  intros Hr. pose proof (Z.rem_bound_pos r 4000 Hr ltac:(lia)) as Hrem.
  unfold ushort. rewrite Z.mod_small by lia. lia.
Qed.

Section Simulation.

(** Any generator that keeps the promise of the C standard: [rand] returns a
    value between 0 and [RAND_MAX]. *)
Variable P : prng.
Hypothesis rand_nonneg : forall g, 0 <= fst (rand P g).

(** The loop stores a simulated value in each of the [n] slots from [i] on
    and leaves the others as they were, provided the array has room. *)
Lemma fill_registers_spec :
  forall (n i : nat) (g : rng P) (dest : list Z),
    (i + n <= length dest)%nat ->
    exists dest',
      fill_registers P n i g dest = Some dest'
      /\ length dest' = length dest
      /\ (forall j, (i <= j < i + n)%nat ->
            exists v, dest' !! j = Some v /\ 1000 <= v <= 4999)
      /\ (forall j, (j < i \/ i + n <= j)%nat -> dest' !! j = dest !! j).
Proof.
  induction n as [|n IH]; intros i g dest Hroom.
  - exists dest. cbn [fill_registers].
    split; [reflexivity|]. split; [reflexivity|]. split; [intros j Hj; lia | auto].
  - cbn [fill_registers]. pose proof (rand_nonneg g) as Hr.
    destruct (rand P g) as [r g']. cbn [fst] in Hr.
    destruct (Nat.ltb_spec i (length dest)) as [Hi|Hi]; [|lia].
    set (v := ushort (Z.rem r 4000 + 1000)).
    destruct (IH (S i) g' (<[ i := v ]> dest)) as (dest' & Hrun & Hlen & Hin & Hout).
    { rewrite length_insert. lia. }
    exists dest'. split; [exact Hrun|]. rewrite length_insert in Hlen.
    split; [exact Hlen|]. split.
    + intros j Hj. destruct (Nat.eq_dec j i) as [->|Hne].
      * exists v. split; [|apply simulated_value_range, Hr].
        rewrite Hout by lia. apply list_lookup_insert_eq. exact Hi.
      * apply Hin. lia.
    + intros j Hj. rewrite Hout by lia. apply list_lookup_insert_ne. lia.
Qed.

(** C10. On every Open session and every destination array with room for
    the [num] registers, [hal_modbus_read_registers] returns 0, changes
    nothing else, and has stored in each slot [dest[0..num-1]] a simulated
    value between 1000 and 4999 inclusive; [rand] is any generator that
    honours the C standard ([rand() >= 0]). *)
Theorem read_registers_simulated (ctx : ptr) (addr num : Z) (dest : list Z)
    (w : world) :
  session_open ctx w = Some true ->
  num <= Z.of_nat (length dest) ->
  exists dest',
    hal_modbus_read_registers P ctx addr num (Some dest) w = Done (0, Some dest') w
    /\ length dest' = length dest
    /\ (forall i : nat, Z.of_nat i < num ->
          exists v, dest' !! i = Some v /\ 1000 <= v <= 4999)
    /\ (forall i : nat, num <= Z.of_nat i -> dest' !! i = dest !! i).
Proof.
  intros Hopen Hroom.
  unfold session_open in Hopen. unfold hal_modbus_read_registers.
  destruct ctx as [|b]; [discriminate|].
  destruct (heap w !! b) as [c|]; [|discriminate].
  injection Hopen as Hopen. apply negb_true_iff in Hopen. rewrite Hopen.
  destruct (fill_registers_spec (Z.to_nat num) 0
              (srand P (dword (dword (epoch w) + addr))) dest)
    as (dest' & Hrun & Hlen & Hin & Hout); [lia|].
  rewrite Hrun. exists dest'. split; [reflexivity|]. split; [exact Hlen|].
  split; intros i Hi; [apply Hin | apply Hout]; lia.
Qed.

End Simulation.

Lemma msvc_rand_nonneg (g : rng msvc_rand) : 0 <= fst (rand msvc_rand g).
Proof.
  cbn [rand msvc_rand fst]. apply Z.land_nonneg. right. lia.
Qed.

(** Three registers read on the connected session into an array of four. *)
Lemma read_registers_simulated_witness :
  (forall g, 0 <= fst (rand msvc_rand g))
  /\ session_open (Ptr 1) connected_world = Some true
  /\ 3 <= Z.of_nat (length [0; 0; 0; 7])
  /\ exists dest',
       hal_modbus_read_registers msvc_rand (Ptr 1) 0 3 (Some [0; 0; 0; 7]) connected_world
       = Done (0, Some dest') connected_world
       /\ length dest' = length [0; 0; 0; 7]
       /\ (forall i : nat, Z.of_nat i < 3 ->
             exists v, dest' !! i = Some v /\ 1000 <= v <= 4999)
       /\ (forall i : nat, 3 <= Z.of_nat i -> dest' !! i = [0; 0; 0; 7] !! i).
Proof.
  assert (Hopen : session_open (Ptr 1) connected_world = Some true)
    by (vm_compute; reflexivity).
  assert (Hroom : 3 <= Z.of_nat (length [0; 0; 0; 7])) by (cbn [length]; lia).
  split; [exact msvc_rand_nonneg|]. split; [exact Hopen|]. split; [exact Hroom|].
  exact (read_registers_simulated msvc_rand msvc_rand_nonneg (Ptr 1) 0 3 [0; 0; 0; 7]
           connected_world Hopen Hroom).
Defined.

(** The values the Microsoft generator gives for that call. *)
Example read_registers_run :
  hal_modbus_read_registers msvc_rand (Ptr 1) 0 3 (Some [0; 0; 0; 7]) connected_world
  = Done (0, Some [1038; 4719; 2238; 7]) connected_world.
Proof. vm_compute. reflexivity. Qed.

(** * Further properties of the code *)

(** ** The CRC engine *)

(** X1. Any message of at most 65533 bytes followed by its CRC, low byte first,
    has CRC zero: the check a receiver of a frame makes.  (The lengths are
    [unsigned short]: the message and its trailer must fit 65535 bytes.) *)
Theorem crc16_trailer_checks (message : list Z) :
  Z.of_nat (length message) + 2 < 65536 ->
  let crc := crc16 message (Z.of_nat (length message)) in
  crc16 (message ++ [crc mod 256; crc / 256]) (Z.of_nat (length message) + 2) = 0.
Proof.
  intros Hlen crc. subst crc.
  rewrite crc16_whole by lia.
  rewrite crc16_fold by lia.
  replace (Z.to_nat (Z.of_nat (length message) + 2))
    with (length (message ++ [fold_left crc16_byte message 65535 mod 256;
                              fold_left crc16_byte message 65535 / 256]))
    by (rewrite length_app; cbn [length]; lia).
  rewrite firstn_all.
  apply fold_crc16_append_crc.
Qed.

Lemma crc16_trailer_checks_witness :
  Z.of_nat (length [17; 3; 2; 0x12; 0x34]) + 2 < 65536
  /\ crc16 ([17; 3; 2; 0x12; 0x34]
             ++ [crc16 [17; 3; 2; 0x12; 0x34] 5 mod 256;
                 crc16 [17; 3; 2; 0x12; 0x34] 5 / 256]) 7 = 0.
Proof.
  assert (Hlen : Z.of_nat (length [17; 3; 2; 0x12; 0x34]) + 2 < 65536).
  { cbn [length]. lia. }
  split; [exact Hlen|].
  exact (crc16_trailer_checks [17; 3; 2; 0x12; 0x34] Hlen).
Defined.

Lemma unshift_all : all_from (Z.to_nat 65536) 0 unshift_ok = true.
Proof. vm_compute. reflexivity. Qed.

Lemma crc16_unshift_shift (x : Z) :
  0 <= x < 65536 -> crc16_unshift (crc16_shift x) = x.
Proof.
  intros H. apply Z.eqb_eq.
  apply (all_from_spec _ _ _ unshift_all x). rewrite Z2Nat.id; lia.
Qed.

Lemma crc16_bits_inj (k : nat) (x y : Z) :
  0 <= x < 65536 -> 0 <= y < 65536 ->
  crc16_bits k x = crc16_bits k y -> x = y.
Proof.
  revert x y. induction k as [|k IH]; intros x y Hx Hy; cbn [crc16_bits]; [auto|].
  intros H. apply IH in H; auto with crc.
  rewrite <- (crc16_unshift_shift x Hx), <- (crc16_unshift_shift y Hy), H.
  reflexivity.
Qed.

Lemma lxor_cancel_l (a b c : Z) : Z.lxor a b = Z.lxor a c -> b = c.
Proof.
  intros H. rewrite <- (Z.lxor_0_l b), <- (Z.lxor_0_l c), <- (Z.lxor_nilpotent a).
  rewrite !Z.lxor_assoc, H. reflexivity.
Qed.

Lemma lxor_cancel_r (a b c : Z) : Z.lxor b a = Z.lxor c a -> b = c.
Proof. rewrite !(Z.lxor_comm _ a). apply lxor_cancel_l. Qed.

Lemma crc16_byte_inj_byte (crc a b : Z) :
  0 <= crc < 65536 -> is_byte a -> is_byte b ->
  crc16_byte crc a = crc16_byte crc b -> a = b.
Proof.
  unfold crc16_byte, is_byte. intros Hc Ha Hb H.
  apply crc16_bits_inj in H; [apply (lxor_cancel_l crc), H | |];
    apply (lxor_bound 16); lia.
Qed.

Lemma crc16_byte_inj_crc (c1 c2 b : Z) :
  0 <= c1 < 65536 -> 0 <= c2 < 65536 -> is_byte b ->
  crc16_byte c1 b = crc16_byte c2 b -> c1 = c2.
Proof.
  unfold crc16_byte, is_byte. intros H1 H2 Hb H.
  apply crc16_bits_inj in H; [apply (lxor_cancel_r b), H | |];
    apply (lxor_bound 16); lia.
Qed.

Lemma fold_crc16_byte_inj (l : list Z) (c1 c2 : Z) :
  Forall is_byte l -> 0 <= c1 < 65536 -> 0 <= c2 < 65536 ->
  fold_left crc16_byte l c1 = fold_left crc16_byte l c2 -> c1 = c2.
Proof.
  intros Hl. revert c1 c2.
  induction Hl as [|b l Hb _ IH]; intros c1 c2 H1 H2; [auto|].
  rewrite !fold_left_step. intros H.
  apply IH in H; auto with crc.
  apply (crc16_byte_inj_crc c1 c2 b); assumption.
Qed.

(** X2. A corruption confined to one byte always changes the CRC: two messages
    of fewer than 65536 bytes that differ in exactly one byte have different
    CRCs. *)
Theorem crc16_detects_one_byte (before after : list Z) (a b : Z) :
  Forall is_byte before -> Forall is_byte after -> is_byte a -> is_byte b ->
  Z.of_nat (length (before ++ a :: after)) < 65536 ->
  a <> b ->
  crc16 (before ++ a :: after) (Z.of_nat (length (before ++ a :: after)))
  <> crc16 (before ++ b :: after) (Z.of_nat (length (before ++ b :: after))).
Proof.
  intros Hp Hs Ha Hb Hlen Hne.
  assert (Hlen' : Z.of_nat (length (before ++ b :: after)) < 65536).
  { rewrite length_app in *. cbn [length] in *. exact Hlen. }
  rewrite !crc16_whole by assumption.
  rewrite !fold_left_app, !fold_left_step.
  intros H.
  pose proof (fold_crc16_byte_range before 0xFFFF Hp ltac:(lia)) as Hr.
  apply fold_crc16_byte_inj in H; auto with crc.
  apply Hne. apply (crc16_byte_inj_byte _ a b Hr Ha Hb H).
Qed.

Lemma crc16_detects_one_byte_witness :
  Forall is_byte [1; 3; 2] /\ Forall is_byte [250; 0x38; 0x07]
  /\ is_byte 0 /\ is_byte 1
  /\ Z.of_nat (length ([1; 3; 2] ++ 0 :: [250; 0x38; 0x07])) < 65536
  /\ 0 <> 1
  /\ crc16 ([1; 3; 2] ++ 0 :: [250; 0x38; 0x07])
       (Z.of_nat (length ([1; 3; 2] ++ 0 :: [250; 0x38; 0x07])))
     <> crc16 ([1; 3; 2] ++ 1 :: [250; 0x38; 0x07])
          (Z.of_nat (length ([1; 3; 2] ++ 1 :: [250; 0x38; 0x07]))).
Proof.
  assert (Hp : Forall is_byte [1; 3; 2]) by bytes.
  assert (Hs : Forall is_byte [250; 0x38; 0x07]) by bytes.
  assert (Ha : is_byte 0) by (unfold is_byte; lia).
  assert (Hb : is_byte 1) by (unfold is_byte; lia).
  assert (Hlen : Z.of_nat (length ([1; 3; 2] ++ 0 :: [250; 0x38; 0x07])) < 65536).
  { cbn [length app]. lia. }
  assert (Hne : 0 <> 1) by lia.
  repeat (split; [assumption|]).
  exact (crc16_detects_one_byte [1; 3; 2] [250; 0x38; 0x07] 0 1 Hp Hs Ha Hb Hlen Hne).
Defined.

(** ** The request frame, further *)

Lemma reg_bytes (reg : Z) :
  uchar (Z.shiftr reg 8) = (reg mod 65536) / 256
  /\ uchar (Z.land reg 0xFF) = (reg mod 65536) mod 256.
Proof.
  unfold uchar. rewrite Z.shiftr_div_pow2 by lia. change (2 ^ 8) with 256.
  change 0xFF with (Z.ones 8). rewrite Z.land_ones by lia. change (2 ^ 8) with 256.
  split; Z.div_mod_to_equations; lia.
Qed.

(** X3. The frame carries the slave address as one byte and the register as 16
    bits, and nothing else of its arguments: two requests are the same eight
    bytes exactly when their addresses agree modulo 256 and their registers
    modulo 65536.  So slave 257 is addressed as slave 1, and register -1 as
    register 0xFFFF. *)
Theorem request_frame_identifies (addr1 reg1 addr2 reg2 : Z) :
  request_frame addr1 reg1 = request_frame addr2 reg2
  <-> addr1 mod 256 = addr2 mod 256 /\ reg1 mod 65536 = reg2 mod 65536.
Proof.
  destruct (reg_bytes reg1) as [Hh1 Hl1]. destruct (reg_bytes reg2) as [Hh2 Hl2].
  unfold request_frame. rewrite Hh1, Hl1, Hh2, Hl2. unfold uchar.
  split.
  - intros H. apply app_inj_1 in H as [H _]; [|reflexivity].
    injection H as Ha Hh Hl. split; [exact Ha|].
    rewrite (Z.div_mod (reg1 mod 65536) 256), (Z.div_mod (reg2 mod 65536) 256) by lia.
    rewrite Hh, Hl. reflexivity.
  - intros [Ha Hr]. rewrite Ha, Hr. reflexivity.
Qed.

(** ** The response checks, further *)

(** X4. On a buffer of bytes a value is decoded exactly when at least seven bytes
    arrived, the first is the requested address, the second is 0x03 and the
    third is 2; the value is then the 16-bit number that bytes 3 and 4 spell,
    high byte first.  In particular a Modbus exception reply (function code
    0x83) is never decoded. *)
Theorem parse_response_accepts (addr raw : Z) (response : list Z) :
  Forall is_byte response ->
  parse_response addr response = Decoded raw
  <-> 7 <= Z.of_nat (length response)
      /\ nth 0 response 0 = addr
      /\ nth 1 response 0 = 0x03
      /\ nth 2 response 0 = 2
      /\ raw = 256 * nth 3 response 0 + nth 4 response 0
      /\ 0 <= raw <= 65535.
Proof.
  intros Hb.
  assert (Hnth : forall i, Z.of_nat i < Z.of_nat (length response) ->
                           is_byte (nth i response 0)).
  { intros i Hi. rewrite Forall_forall in Hb. apply Hb, list_elem_of_In, nth_In. lia. }
  split.
  - intros H. destruct (parse_response_decoded addr response raw H)
      as (Hlen & H0 & H1 & H2 & Hraw).
    pose proof (Hnth 3%nat ltac:(lia)) as H3. pose proof (Hnth 4%nat ltac:(lia)) as H4.
    rewrite (decode_big_endian _ _ H3 H4) in Hraw.
    unfold is_byte in H3, H4. repeat split; try assumption; lia.
  - intros (Hlen & H0 & H1 & H2 & Hraw & _).
    pose proof (Hnth 3%nat ltac:(lia)) as H3. pose proof (Hnth 4%nat ltac:(lia)) as H4.
    rewrite parse_response_cases.
    destruct (Z.ltb_spec (Z.of_nat (length response)) 7) as [H|_]; [lia|].
    rewrite H0, H1, H2, Z.eqb_refl. cbn [negb orb Z.eqb Pos.eqb].
    rewrite (decode_big_endian _ _ H3 H4), Hraw. reflexivity.
Qed.

Lemma parse_response_accepts_witness :
  Forall is_byte [1; 3; 2; 0x12; 0x34; 0; 0]
  /\ (parse_response 1 [1; 3; 2; 0x12; 0x34; 0; 0] = Decoded 0x1234
      <-> 7 <= Z.of_nat (length [1; 3; 2; 0x12; 0x34; 0; 0])
          /\ nth 0 [1; 3; 2; 0x12; 0x34; 0; 0] 0 = 1
          /\ nth 1 [1; 3; 2; 0x12; 0x34; 0; 0] 0 = 0x03
          /\ nth 2 [1; 3; 2; 0x12; 0x34; 0; 0] 0 = 2
          /\ 0x1234 = 256 * nth 3 [1; 3; 2; 0x12; 0x34; 0; 0] 0
                      + nth 4 [1; 3; 2; 0x12; 0x34; 0; 0] 0
          /\ 0 <= 0x1234 <= 65535).
Proof.
  assert (Hb : Forall is_byte [1; 3; 2; 0x12; 0x34; 0; 0]) by bytes.
  split; [exact Hb|].
  exact (parse_response_accepts 1 0x1234 [1; 3; 2; 0x12; 0x34; 0; 0] Hb).
Defined.

(** X5. Only the first five bytes of a complete reply matter: two buffers of at
    least seven bytes with the same first five bytes have the same outcome,
    whatever follows and however long they are. *)
Theorem parse_response_first_five (addr : Z) (r1 r2 : list Z) :
  7 <= Z.of_nat (length r1) -> 7 <= Z.of_nat (length r2) ->
  firstn 5 r1 = firstn 5 r2 ->
  parse_response addr r1 = parse_response addr r2.
Proof.
  intros H1 H2 Heq.
  assert (Hnth : forall i, (i < 5)%nat -> nth i r1 0 = nth i r2 0).
  { intros i Hi.
    pose proof (nth_firstn 5 r1 i 0) as E1. pose proof (nth_firstn 5 r2 i 0) as E2.
    destruct (Nat.ltb_spec i 5) as [_|]; [|lia].
    rewrite <- E1, <- E2, Heq. reflexivity. }
  rewrite !parse_response_cases.
  destruct (Z.ltb_spec (Z.of_nat (length r1)) 7) as [|_]; [lia|].
  destruct (Z.ltb_spec (Z.of_nat (length r2)) 7) as [|_]; [lia|].
  rewrite !(Hnth 0%nat), !(Hnth 1%nat), !(Hnth 2%nat), !(Hnth 3%nat), !(Hnth 4%nat)
    by lia.
  reflexivity.
Qed.

Lemma parse_response_first_five_witness :
  7 <= Z.of_nat (length [1; 3; 2; 0; 250; 0x38; 0x07])
  /\ 7 <= Z.of_nat (length [1; 3; 2; 0; 250; 9; 9; 9; 9; 9])
  /\ firstn 5 [1; 3; 2; 0; 250; 0x38; 0x07] = firstn 5 [1; 3; 2; 0; 250; 9; 9; 9; 9; 9]
  /\ parse_response 1 [1; 3; 2; 0; 250; 0x38; 0x07]
     = parse_response 1 [1; 3; 2; 0; 250; 9; 9; 9; 9; 9].
Proof.
  assert (H1 : 7 <= Z.of_nat (length [1; 3; 2; 0; 250; 0x38; 0x07]))
    by (cbn [length]; lia).
  assert (H2 : 7 <= Z.of_nat (length [1; 3; 2; 0; 250; 9; 9; 9; 9; 9]))
    by (cbn [length]; lia).
  split; [exact H1|]. split; [exact H2|]. split; [reflexivity|].
  exact (parse_response_first_five 1 _ _ H1 H2 eq_refl).
Defined.

Lemma reading_ok_all : all_from (Z.to_nat 65536) 0 reading_ok = true.
Proof. vm_compute. reflexivity. Qed.

(** X6. The value [-1.0f] is returned on failures only: whatever was received,
    a decoded reading comes back as a finite [float] that is not negative,
    at either scale. *)
Theorem failure_value_unambiguous (addr : Z) (response : list Z) :
  (return_value 10 (parse_response addr response) = float_of_int (-1)
   <-> exists f, parse_response addr response = Failed f)
  /\ (return_value 100 (parse_response addr response) = float_of_int (-1)
      <-> exists f, parse_response addr response = Failed f)
  /\ forall raw, parse_response addr response = Decoded raw ->
       nonneg_finite (return_value 10 (Decoded raw)) = true
       /\ nonneg_finite (return_value 100 (Decoded raw)) = true.
Proof.
  assert (Hok : forall raw, parse_response addr response = Decoded raw ->
            nonneg_finite (return_value 10 (Decoded raw)) = true
            /\ nonneg_finite (return_value 100 (Decoded raw)) = true).
  { intros raw H. apply parse_response_decoded in H as (_ & _ & _ & _ & ->).
    apply andb_prop. apply (all_from_spec _ _ _ reading_ok_all).
    rewrite Z2Nat.id by lia. unfold ushort. apply Z.mod_pos_bound. lia. }
  assert (Hneg : nonneg_finite (float_of_int (-1)) = false) by reflexivity.
  destruct (parse_response addr response) as [f|raw] eqn:Hp.
  - split; [|split].
    + split; [intros _; eauto | reflexivity].
    + split; [intros _; eauto | reflexivity].
    + intros r Hr. discriminate Hr.
  - destruct (Hok raw eq_refl) as [H10 H100]. split; [|split].
    + split; [intros E; rewrite E in H10; congruence | intros [f Hf]; discriminate Hf].
    + split; [intros E; rewrite E in H100; congruence | intros [f Hf]; discriminate Hf].
    + intros r [= <-]. split; assumption.
Qed.

(** ** The response loop, further *)

Lemma delivered_bytes (e : read_event) : Forall is_byte (delivered e).
Proof.
  unfold delivered. destruct (ev_ok e); [|constructor].
  apply Forall_forall. intros x Hx. apply list_elem_of_In, in_map_iff in Hx.
  destruct Hx as (y & <- & _). unfold is_byte, uchar. apply Z.mod_pos_bound. lia.
Qed.

Lemma ReadFile_effect (h n : Z) (w w1 : world) (ok : bool) (data : list Z) :
  250 <= n ->
  Forall (fun e => Z.of_nat (length (ev_data e)) <= 250) (line w) ->
  ReadFile h n w = (ok, data, w1) ->
  exists consumed,
    line w = consumed ++ line w1
    /\ data = concat (map delivered consumed)
    /\ Forall is_byte data
    /\ Z.of_nat (length data) <= 250
    /\ (ok = false -> data = []).
Proof.
  intros Hn Hsmall. unfold ReadFile.
  destruct (line w) as [|e rest] eqn:Hline.
  - intros [= <- <- <-]. exists []. rewrite Hline. cbn [length].
    repeat split; [constructor | lia].
  - inversion Hsmall as [|? ? He _]; subst.
    assert (Hall : firstn (Z.to_nat n) (ev_data e) = ev_data e)
      by (apply firstn_all2; lia).
    pose proof (delivered_bytes e) as Hb. unfold delivered in Hb.
    destruct (ev_ok e) eqn:Hok; intros [= <- <- <-]; exists [e];
      cbn [map concat line set_line set_clock]; unfold delivered; rewrite Hok;
      cbn [length];
      rewrite ?app_nil_r, ?Hall, ?length_map;
      repeat split; try assumption; try lia; try constructor; discriminate.
Qed.

(** X7. Nothing is lost, added or reordered on the way into the buffer: when no
    read delivers more than 250 bytes, the loop returns exactly the bytes of
    the reads it consumed, in arrival order (a failed read contributes
    nothing), leaves the rest of the line unread and never holds more than
    256 bytes. *)
Theorem read_loop_in_order (fuel : nat) (h start_time : Z) (w w' : world)
    (response : list Z) :
  Forall (fun e => Z.of_nat (length (ev_data e)) <= 250) (line w) ->
  read_loop fuel h start_time [] w = Some (response, w') ->
  exists consumed,
    line w = consumed ++ line w'
    /\ response = concat (map delivered consumed)
    /\ Forall is_byte response
    /\ Z.of_nat (length response) <= 256.
Proof.
  intros Hsmall Hrun.
  assert (Hgen : forall fuel r0 w0,
    Forall (fun e => Z.of_nat (length (ev_data e)) <= 250) (line w0) ->
    Z.of_nat (length r0) < 7 -> Forall is_byte r0 ->
    read_loop fuel h start_time r0 w0 = Some (response, w') ->
    exists consumed,
      line w0 = consumed ++ line w'
      /\ response = r0 ++ concat (map delivered consumed)
      /\ Forall is_byte response
      /\ Z.of_nat (length response) <= 256).
  { clear. induction fuel as [|fuel IH]; intros r0 w0 Hsmall Hlen Hb; [discriminate|].
    cbn [read_loop].
    destruct (negb (Z.of_nat (length r0) <? 256)).
    { intros [= <- <-]. exists []. rewrite app_nil_r. repeat split; [assumption | lia]. }
    destruct (negb (dword (GetTickCount w0 - start_time) <? 1000)).
    { intros [= <- <-]. exists []. rewrite app_nil_r. repeat split; [assumption | lia]. }
    destruct (ReadFile h (256 - Z.of_nat (length r0)) w0) as [[ok data] w1] eqn:Hrf.
    assert (Hroom : 250 <= 256 - Z.of_nat (length r0)) by lia.
    destruct (ReadFile_effect h _ w0 w1 ok data Hroom Hsmall Hrf)
      as (c1 & Hline & Hdata & Hbytes & Hcap & Hfail).
    assert (Hsmall1 : Forall (fun e => Z.of_nat (length (ev_data e)) <= 250)
                        (line (Sleep 10 w1))).
    { cbn [Sleep line set_clock]. rewrite Hline in Hsmall.
      apply Forall_app in Hsmall. apply Hsmall. }
    assert (Hrec : forall r1, r1 = r0 ++ data ->
      Z.of_nat (length r1) < 7 ->
      read_loop fuel h start_time r1 (Sleep 10 w1) = Some (response, w') ->
      exists consumed,
        line w0 = consumed ++ line w'
        /\ response = r0 ++ concat (map delivered consumed)
        /\ Forall is_byte response
        /\ Z.of_nat (length response) <= 256).
    { intros r1 -> Hlen1 Hrun.
      assert (Hb1 : Forall is_byte (r0 ++ data)) by (apply Forall_app; split; assumption).
      destruct (IH _ (Sleep 10 w1) Hsmall1 Hlen1 Hb1 Hrun) as (c2 & Hl2 & Hr2 & Hb2 & Hcap2).
      exists (c1 ++ c2). cbn [Sleep line set_clock] in Hl2.
      rewrite Hline, Hl2, map_app, concat_app, <- Hdata, !app_assoc.
      repeat split; assumption. }
    assert (Hnone : data = [] ->
      read_loop fuel h start_time r0 (Sleep 10 w1) = Some (response, w') ->
      exists consumed,
        line w0 = consumed ++ line w'
        /\ response = r0 ++ concat (map delivered consumed)
        /\ Forall is_byte response
        /\ Z.of_nat (length response) <= 256).
    { intros Hnil Hrun. apply (Hrec r0); [rewrite Hnil, app_nil_r; reflexivity | exact Hlen | exact Hrun]. }
    destruct ok; [|apply Hnone, Hfail; reflexivity].
    destruct (Z.ltb_spec 0 (Z.of_nat (length data))) as [Hpos|Hzero].
    - destruct (Z.leb_spec 7 (Z.of_nat (length (r0 ++ data)))) as [H7|H7].
      + intros [= <- <-]. exists c1. rewrite <- Hdata.
        repeat split; [assumption | apply Forall_app; split; assumption |].
        rewrite length_app, Nat2Z.inj_add. lia.
      + apply Hrec; [reflexivity | exact H7].
    - apply Hnone. destruct data; [reflexivity | cbn [length] in Hzero; lia]. }
  destruct (Hgen fuel [] w Hsmall ltac:(cbn [length]; lia) ltac:(constructor) Hrun)
    as (consumed & H1 & H2 & H3 & H4).
  exists consumed. repeat split; assumption.
Qed.

(** A reply that arrives in three pieces around a failed read. *)
Lemma read_loop_in_order_witness :
  Forall (fun e => Z.of_nat (length (ev_data e)) <= 250)
    (line (quiet_world [ {| ev_ok := true; ev_data := [1; 3; 2]; ev_wait := 20 |};
                         {| ev_ok := false; ev_data := [77]; ev_wait := 20 |};
                         {| ev_ok := true; ev_data := [0; 250; 0x38; 0x07]; ev_wait := 5 |};
                         {| ev_ok := true; ev_data := [99]; ev_wait := 5 |} ]))
  /\ read_loop 101 1 0 []
       (quiet_world [ {| ev_ok := true; ev_data := [1; 3; 2]; ev_wait := 20 |};
                      {| ev_ok := false; ev_data := [77]; ev_wait := 20 |};
                      {| ev_ok := true; ev_data := [0; 250; 0x38; 0x07]; ev_wait := 5 |};
                      {| ev_ok := true; ev_data := [99]; ev_wait := 5 |} ])
     = Some ([1; 3; 2; 0; 250; 0x38; 0x07],
             set_clock 65
               (quiet_world [ {| ev_ok := true; ev_data := [99]; ev_wait := 5 |} ]))
  /\ exists consumed,
       line (quiet_world [ {| ev_ok := true; ev_data := [1; 3; 2]; ev_wait := 20 |};
                           {| ev_ok := false; ev_data := [77]; ev_wait := 20 |};
                           {| ev_ok := true; ev_data := [0; 250; 0x38; 0x07]; ev_wait := 5 |};
                           {| ev_ok := true; ev_data := [99]; ev_wait := 5 |} ])
       = consumed
         ++ line (set_clock 65
                    (quiet_world [ {| ev_ok := true; ev_data := [99]; ev_wait := 5 |} ]))
       /\ [1; 3; 2; 0; 250; 0x38; 0x07] = concat (map delivered consumed)
       /\ Forall is_byte [1; 3; 2; 0; 250; 0x38; 0x07]
       /\ Z.of_nat (length [1; 3; 2; 0; 250; 0x38; 0x07]) <= 256.
Proof.
  match goal with |- ?Hs /\ ?Hr /\ _ =>
    assert (Hsmall : Hs) by (repeat constructor; cbn [ev_data length]; lia);
    assert (Hrun : Hr) by (vm_compute; reflexivity)
  end.
  split; [exact Hsmall|]. split; [exact Hrun|].
  exact (read_loop_in_order 101 1 0 _ _ _ Hsmall Hrun).
Defined.

(** ** The sensor functions as a whole *)

Lemma sensor_handle_fresh (w : world) :
  (sensor_handle w ∉ handles w)
  /\ sensor_handle w <> 0 /\ sensor_handle w <> INVALID_HANDLE_VALUE.
Proof.
  unfold sensor_handle.
  pose proof (is_fresh ({[0; INVALID_HANDLE_VALUE]} ∪ handles w)) as Hf.
  rewrite !elem_of_union, !elem_of_singleton in Hf. tauto.
Qed.

Lemma close_opened (h : Z) (hs : gset Z) : h ∉ hs -> ({[ h ]} ∪ hs) ∖ {[ h ]} = hs.
Proof.
  intros Hh. apply leibniz_equiv, set_equiv. intros x.
  rewrite elem_of_difference, elem_of_union, elem_of_singleton.
  split; [tauto|]. intros Hx. split; [tauto|]. intros ->. contradiction.
Qed.

Lemma request_frame_length (addr reg : Z) : length (request_frame addr reg) = 8%nat.
Proof. reflexivity. Qed.

(** With a working port the function is its response loop, started in
    [listening_world], followed by the checks and the closing of the handle. *)
Lemma read_sensor_run (fuel : nat) (dev : string) (addr reg : Z) (w : world) :
  port_works (os w) ->
  read_sensor fuel dev addr reg w =
    match read_loop fuel (sensor_handle w) (GetTickCount (listening_world addr reg w)) []
            (listening_world addr reg w) with
    | Some (response, w2) =>
        Some (parse_response addr response, CloseHandle (sensor_handle w) w2)
    | None => None
    end.
Proof.
  intros (Hc & Hg & Hs & Ht & Hw & Hn).
  destruct (sensor_handle_fresh w) as (_ & _ & Hinv).
  unfold read_sensor, CreateFileA. rewrite Hc. fold (sensor_handle w).
  destruct (Z.eqb_spec (sensor_handle w) INVALID_HANDLE_VALUE) as [|_]; [contradiction|].
  unfold GetCommState, SetCommState, SetCommTimeouts, PurgeComm, WriteFile.
  cbn [os set_handles]. rewrite Hg, Hs, Ht, Hw. cbn [negb].
  assert (Hsent : firstn (Z.to_nat (Z.min 8 (write_count (os w)))) (request_frame addr reg)
                  = request_frame addr reg).
  { apply firstn_all2. rewrite request_frame_length. lia. }
  rewrite Hsent, request_frame_length. cbn [Z.of_nat Pos.of_succ_nat Pos.succ Z.eqb Pos.eqb negb orb].
  reflexivity.
Qed.

(** Without a working port the function returns before it reads, waits or
    leaves a handle open, whatever the fuel. *)
Lemma read_sensor_stops_early (fuel : nat) (dev : string) (addr reg : Z) (w : world) :
  ~ port_works (os w) ->
  exists f w',
    read_sensor fuel dev addr reg w = Some (Failed f, w')
    /\ early_failure f = true
    /\ line w' = line w /\ clock w' = clock w
    /\ handles w' = handles w /\ heap w' = heap w.
Proof.
  intros Hbad.
  destruct (sensor_handle_fresh w) as (Hfresh & _ & Hinv).
  unfold read_sensor, CreateFileA.
  destruct (create_ok (os w)) eqn:Hc.
  2:{ rewrite Z.eqb_refl. eexists _, _. split; [reflexivity|]. repeat split. }
  fold (sensor_handle w).
  destruct (Z.eqb_spec (sensor_handle w) INVALID_HANDLE_VALUE) as [|_]; [contradiction|].
  unfold GetCommState, SetCommState, SetCommTimeouts, PurgeComm, WriteFile.
  cbn [os set_handles].
  assert (Hclose : forall w1, handles w1 = {[sensor_handle w]} ∪ handles w ->
            handles (CloseHandle (sensor_handle w) w1) = handles w).
  { intros w1 H1. cbn [CloseHandle handles set_handles]. rewrite H1.
    apply close_opened, Hfresh. }
  destruct (get_state_ok (os w)) eqn:Hg; cbn [negb].
  2:{ eexists _, _. split; [reflexivity|]. repeat split. apply Hclose. reflexivity. }
  destruct (set_state_ok (os w)) eqn:Hs; cbn [negb].
  2:{ eexists _, _. split; [reflexivity|]. repeat split. apply Hclose. reflexivity. }
  destruct (set_timeouts_ok (os w)) eqn:Ht; cbn [negb].
  2:{ eexists _, _. split; [reflexivity|]. repeat split. apply Hclose. reflexivity. }
  destruct (write_ok (os w)) eqn:Hw; cbn [negb orb].
  2:{ eexists _, _. split; [reflexivity|]. repeat split. apply Hclose. reflexivity. }
  assert (Hshort : write_count (os w) < 8).
  { destruct (Z.lt_ge_cases (write_count (os w)) 8) as [|Hge]; [assumption|].
    exfalso. apply Hbad. unfold port_works. repeat split; assumption || lia. }
  assert (Hlen : (Z.of_nat (length (firstn (Z.to_nat (Z.min 8 (write_count (os w))))
                                      (request_frame addr reg))) =? 8) = false).
  { apply Z.eqb_neq. rewrite length_take, request_frame_length. lia. }
  rewrite Hlen. cbn [negb].
  eexists _, _. split; [reflexivity|]. repeat split. apply Hclose. reflexivity.
Qed.

Lemma read_loop_frame (fuel : nat) (h start_time : Z) (r0 response : list Z)
    (w0 w' : world) :
  Forall is_byte r0 ->
  read_loop fuel h start_time r0 w0 = Some (response, w') ->
  Forall is_byte response /\ handles w' = handles w0 /\ heap w' = heap w0.
Proof.
  revert r0 w0. induction fuel as [|fuel IH]; intros r0 w0 Hb; [discriminate|].
  cbn [read_loop].
  destruct (negb (Z.of_nat (length r0) <? 256)); [intros [= <- <-]; auto|].
  destruct (negb (dword (GetTickCount w0 - start_time) <? 1000));
    [intros [= <- <-]; auto|].
  assert (Hrf : let r := ReadFile h (256 - Z.of_nat (length r0)) w0 in
            Forall is_byte (snd (fst r))
            /\ handles (snd r) = handles w0 /\ heap (snd r) = heap w0).
  { unfold ReadFile. destruct (line w0) as [|e rest]; cbn [fst snd]; [auto using Forall_nil_2|].
    destruct (ev_ok e); cbn [fst snd handles heap set_line set_clock];
      repeat split; [|constructor].
    apply Forall_forall. intros x Hx. apply list_elem_of_In, in_map_iff in Hx.
    destruct Hx as (y & <- & _). unfold is_byte, uchar. apply Z.mod_pos_bound. lia. }
  destruct (ReadFile h (256 - Z.of_nat (length r0)) w0) as [[ok data] w1].
  cbn [fst snd] in Hrf. destruct Hrf as (Hdata & Hh & Hm).
  assert (Hrec : forall r1, Forall is_byte r1 ->
    read_loop fuel h start_time r1 (Sleep 10 w1) = Some (response, w') ->
    Forall is_byte response /\ handles w' = handles w0 /\ heap w' = heap w0).
  { intros r1 Hr1 Hrun. destruct (IH r1 (Sleep 10 w1) Hr1 Hrun) as (H1 & H2 & H3).
    cbn [Sleep handles heap set_clock] in H2, H3. rewrite H2, H3. auto. }
  assert (Hb' : Forall is_byte (r0 ++ data)) by (apply Forall_app; split; assumption).
  destruct ok; [|apply Hrec, Hb].
  destruct (0 <? Z.of_nat (length data)); [|apply Hrec, Hb].
  destruct (7 <=? Z.of_nat (length (r0 ++ data))); [|apply Hrec, Hb'].
  intros [= <- <-]. auto.
Qed.

Lemma port_works_dec (p : port_behaviour) : port_works p \/ ~ port_works p.
Proof.
  unfold port_works.
  destruct (create_ok p), (get_state_ok p), (set_state_ok p), (set_timeouts_ok p),
    (write_ok p);
    try (right; intros (? & ? & ? & ? & ? & ?); discriminate).
  destruct (Z.le_gt_cases 8 (write_count p)); [left; auto 10 | right].
  intros (_ & _ & _ & _ & _ & ?). lia.
Qed.

(** X8. A sensor read closes the port it opened, on every path: when it returns,
    the open handles are those that were open before the call, and the
    session contexts are untouched. *)
Theorem read_sensor_closes_port (fuel : nat) (dev : string) (addr reg : Z)
    (w w' : world) (o : outcome) :
  read_sensor fuel dev addr reg w = Some (o, w') ->
  handles w' = handles w /\ heap w' = heap w.
Proof.
  intros Hrun0. revert Hrun0.
  destruct (port_works_dec (os w)) as [Hgood|Hbad].
  - rewrite (read_sensor_run fuel dev addr reg w Hgood).
    destruct (read_loop _ _ _ _ _) as [[response w2]|] eqn:Hloop; [|discriminate].
    intros [= _ <-].
    destruct (read_loop_frame _ _ _ _ _ _ _ ltac:(constructor) Hloop) as (_ & Hh & Hm).
    cbn [CloseHandle handles heap set_handles]. rewrite Hh, Hm.
    cbn [listening_world Sleep handles heap set_clock set_wire set_handles].
    split; [|reflexivity].
    apply close_opened. apply sensor_handle_fresh.
  - destruct (read_sensor_stops_early fuel dev addr reg w Hbad)
      as (f & w1 & Hrun & _ & _ & _ & Hh & Hm).
    rewrite Hrun. intros [= _ <-]. auto.
Qed.

Lemma read_sensor_closes_port_witness :
  read_sensor 101 "COM3" 1 0 six_bytes_then_silence
  = Some (Failed ReadTimeout,
          set_wire [request_frame 1 0] (set_clock 1100 (quiet_world [])))
  /\ handles (set_wire [request_frame 1 0] (set_clock 1100 (quiet_world [])))
     = handles six_bytes_then_silence
  /\ heap (set_wire [request_frame 1 0] (set_clock 1100 (quiet_world [])))
     = heap six_bytes_then_silence.
Proof.
  assert (Hrun : read_sensor 101 "COM3" 1 0 six_bytes_then_silence
                 = Some (Failed ReadTimeout,
                         set_wire [request_frame 1 0] (set_clock 1100 (quiet_world []))))
    by (vm_compute; reflexivity).
  split; [exact Hrun|].
  exact (read_sensor_closes_port 101 "COM3" 1 0 six_bytes_then_silence _ _ Hrun).
Defined.

(** X9. If the port cannot be opened or configured, or does not take the whole
    request, both sensor functions return [-1.0f] at once, whatever the fuel:
    nothing is read, no time passes and no handle stays open. *)
Theorem sensor_read_fails_early (fuel : nat) (dev : string) (addr reg : Z) (w : world) :
  ~ port_works (os w) ->
  exists f w',
    read_sensor fuel dev addr reg w = Some (Failed f, w')
    /\ early_failure f = true
    /\ modbus_read_temperature fuel dev addr reg w = Some (float_of_int (-1), w')
    /\ modbus_read_pressure fuel dev addr reg w = Some (float_of_int (-1), w')
    /\ line w' = line w /\ clock w' = clock w /\ handles w' = handles w.
Proof.
  intros Hbad.
  destruct (read_sensor_stops_early fuel dev addr reg w Hbad)
    as (f & w' & Hrun & Hf & Hl & Hc & Hh & _).
  exists f, w'. unfold modbus_read_temperature, modbus_read_pressure.
  rewrite Hrun. repeat split; assumption.
Qed.

(** A port that opens but takes only five of the eight request bytes. *)
Lemma sensor_read_fails_early_witness :
  ~ port_works (os short_write_world)
  /\ exists f w',
       read_sensor 0 "COM3" 1 0 short_write_world = Some (Failed f, w')
       /\ early_failure f = true
       /\ modbus_read_temperature 0 "COM3" 1 0 short_write_world
          = Some (float_of_int (-1), w')
       /\ modbus_read_pressure 0 "COM3" 1 0 short_write_world
          = Some (float_of_int (-1), w')
       /\ line w' = line short_write_world
       /\ clock w' = clock short_write_world
       /\ handles w' = handles short_write_world.
Proof.
  assert (Hbad : ~ port_works (os short_write_world)).
  { intros (_ & _ & _ & _ & _ & H). cbn [os short_write_world write_count] in H. lia. }
  split; [exact Hbad|].
  exact (sensor_read_fails_early 0 "COM3" 1 0 short_write_world Hbad).
Defined.

(** X10. The whole read on the good path: with a working port and a line whose
    first read delivers the reply [addr, 0x03, 2, hi, lo, c1, c2], both
    functions decode [256 * hi + lo] whatever the two CRC bytes, having put
    the request frame on the wire, consumed that one read, and taken the
    100 ms settle delay and the time of the read, with no 10 ms pause. *)
Theorem sensor_read_decodes (fuel : nat) (dev : string) (addr reg hi lo c1 c2 wait : Z)
    (rest : list read_event) (w : world) :
  port_works (os w) -> (1 <= fuel)%nat ->
  is_byte addr -> is_byte hi -> is_byte lo ->
  line w = {| ev_ok := true; ev_data := [addr; 0x03; 2; hi; lo; c1; c2];
              ev_wait := wait |} :: rest ->
  exists w',
    read_sensor fuel dev addr reg w = Some (Decoded (256 * hi + lo), w')
    /\ modbus_read_temperature fuel dev addr reg w
       = Some (float_div (float_of_int (256 * hi + lo)) (float_of_int 10), w')
    /\ modbus_read_pressure fuel dev addr reg w
       = Some (float_div (float_of_int (256 * hi + lo)) (float_of_int 100), w')
    /\ wire w' = request_frame addr reg :: wire w
    /\ line w' = rest
    /\ clock w' = clock w + 100 + wait
    /\ handles w' = handles w.
Proof.
  intros Hgood Hfuel Haddr Hhi Hlo Hline.
  assert (Hrun : exists w',
    read_sensor fuel dev addr reg w = Some (Decoded (256 * hi + lo), w')
    /\ wire w' = request_frame addr reg :: wire w
    /\ line w' = rest
    /\ clock w' = clock w + 100 + wait
    /\ handles w' = handles w).
  { rewrite (read_sensor_run fuel dev addr reg w Hgood).
    destruct fuel as [|fuel]; [lia|]. cbn [read_loop length].
    change (negb (Z.of_nat 0 <? 256)) with false. cbv iota.
    unfold GetTickCount at 1 2. rewrite dword_sub, Z.sub_diag.
    change (negb (dword 0 <? 1000)) with false. cbv iota.
    unfold ReadFile. cbn [listening_world Sleep line set_clock set_wire set_handles].
    rewrite Hline. cbn [ev_ok ev_data ev_wait].
    assert (Hdata : map uchar (firstn (Z.to_nat (256 - Z.of_nat 0))
                                 [addr; 0x03; 2; hi; lo; c1; c2])
                    = [addr; 0x03; 2; hi; lo; uchar c1; uchar c2]).
    { change (Z.to_nat (256 - Z.of_nat 0)) with 256%nat. cbn [firstn map].
      unfold is_byte in Haddr, Hhi, Hlo. unfold uchar at 1 2 3 4 5.
      rewrite (Z.mod_small addr), (Z.mod_small hi), (Z.mod_small lo) by lia.
      reflexivity. }
    rewrite Hdata. cbn [app length].
    change (0 <? Z.of_nat 7) with true. change (7 <=? Z.of_nat 7) with true. cbv iota.
    assert (Hparse : parse_response addr [addr; 0x03; 2; hi; lo; uchar c1; uchar c2]
                     = Decoded (256 * hi + lo)).
    { rewrite parse_response_cases. cbn [length nth].
      change (Z.of_nat 7 <? 7) with false. cbv iota.
      rewrite Z.eqb_refl. cbn [negb orb Z.eqb Pos.eqb].
      rewrite decode_big_endian by assumption. reflexivity. }
    rewrite Hparse. eexists. split; [reflexivity|].
    cbn [CloseHandle listening_world Sleep wire line clock handles set_handles
         set_line set_clock set_wire].
    split; [reflexivity|]. split; [reflexivity|]. split; [lia|].
    apply close_opened. apply sensor_handle_fresh. }
  destruct Hrun as (w' & Hrun & Hw & Hl & Hc & Hh).
  exists w'. unfold modbus_read_temperature, modbus_read_pressure. rewrite Hrun.
  repeat split; assumption.
Qed.

Lemma good_port_works : port_works good_port.
Proof. unfold port_works, good_port. cbn. repeat split; lia. Qed.

(** Slave 17 answers 0x0102 = 258 with stray CRC bytes. *)
Lemma sensor_read_decodes_witness :
  port_works (os slave17_world)
  /\ (1 <= 1)%nat /\ is_byte 17 /\ is_byte 1 /\ is_byte 2
  /\ line slave17_world
     = {| ev_ok := true; ev_data := [17; 0x03; 2; 1; 2; 0xAA; 0xBB]; ev_wait := 30 |} :: []
  /\ exists w',
       read_sensor 1 "COM3" 17 0x20 slave17_world = Some (Decoded (256 * 1 + 2), w')
       /\ modbus_read_temperature 1 "COM3" 17 0x20 slave17_world
          = Some (float_div (float_of_int (256 * 1 + 2)) (float_of_int 10), w')
       /\ modbus_read_pressure 1 "COM3" 17 0x20 slave17_world
          = Some (float_div (float_of_int (256 * 1 + 2)) (float_of_int 100), w')
       /\ wire w' = request_frame 17 0x20 :: wire slave17_world
       /\ line w' = []
       /\ clock w' = clock slave17_world + 100 + 30
       /\ handles w' = handles slave17_world.
Proof.
  assert (B17 : is_byte 17) by (unfold is_byte; lia).
  assert (B1 : is_byte 1) by (unfold is_byte; lia).
  assert (B2 : is_byte 2) by (unfold is_byte; lia).
  assert (Hf : (1 <= 1)%nat) by apply Nat.le_refl.
  split; [exact good_port_works|]. split; [exact Hf|].
  split; [exact B17|]. split; [exact B1|]. split; [exact B2|]. split; [reflexivity|].
  exact (sensor_read_decodes 1 "COM3" 17 0x20 1 2 0xAA 0xBB 30 [] slave17_world
           good_port_works Hf B17 B1 B2 eq_refl).
Defined.

(** X11. The slave address is sent as one byte but compared as an [int]: for an
    address outside 0..255 the request is the one for [addr mod 256], no
    reply can echo the address, and the read fails on every line. *)
Theorem sensor_read_bad_address (fuel : nat) (dev : string) (addr reg : Z)
    (w w' : world) (o : outcome) :
  ~ is_byte addr ->
  read_sensor fuel dev addr reg w = Some (o, w') ->
  (exists f, o = Failed f)
  /\ return_value 10 o = float_of_int (-1)
  /\ return_value 100 o = float_of_int (-1)
  /\ request_frame addr reg = request_frame (addr mod 256) reg.
Proof.
  intros Haddr Hrun.
  assert (Hfail : exists f, o = Failed f).
  { destruct (port_works_dec (os w)) as [Hgood|Hbad].
    - rewrite (read_sensor_run fuel dev addr reg w Hgood) in Hrun.
      destruct (read_loop _ _ _ _ _) as [[response w2]|] eqn:Hloop; [|discriminate].
      injection Hrun as <- _.
      destruct (read_loop_frame _ _ _ _ _ _ _ ltac:(constructor) Hloop) as (Hb & _).
      destruct (parse_response addr response) as [f|raw] eqn:Hp; [eauto|].
      exfalso. apply Haddr.
      destruct (parse_response_decoded addr response raw Hp) as (Hlen & <- & _).
      rewrite Forall_forall in Hb. apply Hb, list_elem_of_In, nth_In. lia.
    - destruct (read_sensor_stops_early fuel dev addr reg w Hbad) as (f & w1 & Hr & _).
      rewrite Hr in Hrun. injection Hrun as <- _. eauto. }
  destruct Hfail as [f ->]. split; [eauto|]. split; [reflexivity|]. split; [reflexivity|].
  unfold request_frame, uchar. rewrite Z.mod_mod by lia. reflexivity.
Qed.

(** Slave 257: the request goes out as for slave 1, whose correct reply is
    then refused. *)
Lemma sensor_read_bad_address_witness :
  ~ is_byte 257
  /\ read_sensor 1 "COM3" 257 0
       (quiet_world [ {| ev_ok := true; ev_data := [1; 3; 2; 0; 250; 0x38; 0x07];
                         ev_wait := 30 |} ])
     = Some (Failed InvalidResponse,
             set_wire [request_frame 1 0] (set_clock 130 (quiet_world [])))
  /\ (exists f, Failed InvalidResponse = Failed f)
  /\ return_value 10 (Failed InvalidResponse) = float_of_int (-1)
  /\ return_value 100 (Failed InvalidResponse) = float_of_int (-1)
  /\ request_frame 257 0 = request_frame (257 mod 256) 0.
Proof.
  assert (Hbad : ~ is_byte 257) by (unfold is_byte; lia).
  match goal with |- _ /\ ?R /\ _ =>
    assert (Hrun : R) by (vm_compute; reflexivity)
  end.
  split; [exact Hbad|]. split; [exact Hrun|].
  exact (sensor_read_bad_address 1 "COM3" 257 0 _ _ _ Hbad Hrun).
Defined.

(** ** Register sessions, further *)

Lemma world_eta (w : world) :
  set_heap (heap w) (set_handles (handles w) w) = w.
Proof. destruct w. reflexivity. Qed.

Lemma fresh_block (w : world) : heap w !! fresh (dom (heap w)) = None.
Proof. apply not_elem_of_dom, is_fresh. Qed.

(** [hal_modbus_connect] in closed form. *)
Lemma connect_cases (dev : string) (baud slave_id : Z) (w : world) :
  hal_modbus_connect dev baud slave_id w =
    if connect_ok w
    then (Ptr (fresh (dom (heap w))),
          set_heap (<[ fresh (dom (heap w))
                       := open_context dev baud slave_id (sensor_handle w) ]> (heap w))
            (set_handles ({[ sensor_handle w ]} ∪ handles w) w))
    else (NULL, w).
Proof.
  destruct (sensor_handle_fresh w) as (Hfresh & _ & Hinv).
  pose proof (fresh_block w) as Hb.
  unfold hal_modbus_connect, connect_ok.
  destruct (malloc_ok w); cbn [negb andb]; [|reflexivity].
  unfold CreateFileA. cbn [os handles set_heap].
  destruct (create_ok (os w)); cbn [andb].
  2:{ rewrite Z.eqb_refl. f_equal. unfold free. cbn [heap set_heap].
      rewrite (delete_insert_id _ _ _ Hb). destruct w; reflexivity. }
  fold (sensor_handle w).
  destruct (Z.eqb_spec (sensor_handle w) INVALID_HANDLE_VALUE) as [|_]; [contradiction|].
  unfold GetCommState, SetCommState, SetCommTimeouts. cbn [os set_handles set_heap].
  assert (Hclosed : free (fresh (dom (heap w)))
            (CloseHandle (sensor_handle w)
               (set_handles ({[sensor_handle w]} ∪ handles w)
                  (set_heap (<[fresh (dom (heap w))
                               := {| device := copy_device dev; baud := baud;
                                     slave_id := slave_id; connected := 0;
                                     hSerial := 0 |}]> (heap w)) w)))
            = w).
  { unfold CloseHandle. cbn [handles set_handles set_heap].
    rewrite (close_opened _ _ Hfresh).
    unfold free. cbn [heap set_heap set_handles].
    rewrite (delete_insert_id _ _ _ Hb). destruct w; reflexivity. }
  destruct (get_state_ok (os w)); cbn [negb andb]; [|rewrite Hclosed; reflexivity].
  destruct (set_state_ok (os w)); cbn [negb andb]; [|rewrite Hclosed; reflexivity].
  destruct (set_timeouts_ok (os w)); cbn [negb andb]; [|rewrite Hclosed; reflexivity].
  cbn [heap set_heap set_handles]. rewrite insert_insert_eq. reflexivity.
Qed.

Lemma substring_length_le (n : nat) (s : string) :
  (String.length (String.substring 0 n s) <= n)%nat.
Proof.
  revert s. induction n as [|n IH]; intros [|c s]; cbn [String.substring String.length];
    try lia.
  specialize (IH s). lia.
Qed.

(** X12. If [malloc] or any step of the port set-up fails, [hal_modbus_connect]
    returns [NULL] and leaves no trace: the context it had allocated is
    freed, the handle it had opened is closed, and the world is as before.
    It returns [NULL] in no other case. *)
Theorem connect_failure_leaks_nothing (dev : string) (baud slave_id : Z) (w : world) :
  connect_ok w = false ->
  hal_modbus_connect dev baud slave_id w = (NULL, w)
  /\ forall w0, fst (hal_modbus_connect dev baud slave_id w0) = NULL
                <-> connect_ok w0 = false.
Proof.
  intros Hfail. split.
  - rewrite connect_cases, Hfail. reflexivity.
  - intros w0. rewrite connect_cases.
    destruct (connect_ok w0); cbn [fst]; split; intros H; try reflexivity; discriminate H.
Qed.

Lemma connect_failure_leaks_nothing_witness :
  connect_ok no_port_world = false
  /\ hal_modbus_connect "COM9" 9600 1 no_port_world = (NULL, no_port_world)
  /\ forall w0, fst (hal_modbus_connect "COM9" 9600 1 w0) = NULL
                <-> connect_ok w0 = false.
Proof.
  assert (H : connect_ok no_port_world = false) by reflexivity.
  split; [exact H|].
  exact (connect_failure_leaks_nothing "COM9" 9600 1 no_port_world H).
Defined.

(** X13. When [malloc] and the port set-up succeed, [hal_modbus_connect] returns
    a new block holding an Open session: the device name cut to 255
    characters, the baud rate and slave id as given, [connected = 1], and a
    handle that was not open before and is open now.  Sessions that existed
    are untouched, nothing is sent or read, and a write through the new
    session succeeds. *)
Theorem connect_opens_session (dev : string) (rate sid : Z) (w : world) :
  connect_ok w = true ->
  exists b c w',
    hal_modbus_connect dev rate sid w = (Ptr b, w')
    /\ heap w !! b = None
    /\ heap w' !! b = Some c
    /\ (forall b', b' <> b -> heap w' !! b' = heap w !! b')
    /\ device c = String.substring 0 255 dev
    /\ (String.length (device c) <= 255)%nat
    /\ baud c = rate /\ slave_id c = sid /\ connected c = 1
    /\ (hSerial c ∉ handles w)
    /\ hSerial c <> 0 /\ hSerial c <> INVALID_HANDLE_VALUE
    /\ handles w' = {[ hSerial c ]} ∪ handles w
    /\ wire w' = wire w /\ line w' = line w /\ clock w' = clock w
    /\ session_open (Ptr b) w' = Some true
    /\ forall addr value, hal_modbus_write_register (Ptr b) addr value w' = Done 0 w'.
Proof.
  intros Hok.
  destruct (sensor_handle_fresh w) as (Hfresh & Hnull & Hinv).
  eexists _, (open_context dev rate sid (sensor_handle w)), _.
  split; [rewrite connect_cases, Hok; reflexivity|].
  cbn [heap handles wire line clock set_heap set_handles open_context
       device baud slave_id connected hSerial].
  split; [apply fresh_block|].
  split; [apply lookup_insert_eq|].
  split; [intros b' Hne; apply lookup_insert_ne; congruence|].
  split; [reflexivity|]. split; [apply substring_length_le|].
  repeat (split; [reflexivity || assumption|]).
  unfold session_open, hal_modbus_write_register. cbn [heap set_heap].
  rewrite lookup_insert_eq. cbn [connected open_context]. split; [reflexivity|auto].
Qed.

Lemma connect_opens_session_witness :
  connect_ok (quiet_world []) = true
  /\ exists b c w',
       hal_modbus_connect "COM3" 9600 1 (quiet_world []) = (Ptr b, w')
       /\ heap (quiet_world []) !! b = None
       /\ heap w' !! b = Some c
       /\ (forall b', b' <> b -> heap w' !! b' = heap (quiet_world []) !! b')
       /\ device c = String.substring 0 255 "COM3"
       /\ (String.length (device c) <= 255)%nat
       /\ baud c = 9600 /\ slave_id c = 1 /\ connected c = 1
       /\ (hSerial c ∉ handles (quiet_world []))
       /\ hSerial c <> 0 /\ hSerial c <> INVALID_HANDLE_VALUE
       /\ handles w' = {[ hSerial c ]} ∪ handles (quiet_world [])
       /\ wire w' = wire (quiet_world []) /\ line w' = line (quiet_world [])
       /\ clock w' = clock (quiet_world [])
       /\ session_open (Ptr b) w' = Some true
       /\ forall addr value,
            hal_modbus_write_register (Ptr b) addr value w' = Done 0 w'.
Proof.
  assert (H : connect_ok (quiet_world []) = true) by reflexivity.
  split; [exact H|].
  exact (connect_opens_session "COM3" 9600 1 (quiet_world []) H).
Defined.

(** X14. Connecting and then disconnecting gives back the world as it was: the
    block is freed and the handle closed (and when the connect failed, the
    disconnect of the [NULL] it returned does nothing). *)
Theorem connect_disconnect_restores (dev : string) (rate sid : Z) (w : world) :
  hal_modbus_disconnect (fst (hal_modbus_connect dev rate sid w))
    (snd (hal_modbus_connect dev rate sid w))
  = Done tt w.
Proof.
  destruct (sensor_handle_fresh w) as (Hfresh & Hnull & Hinv).
  rewrite connect_cases. destruct (connect_ok w); cbn [fst snd]; [|reflexivity].
  unfold hal_modbus_disconnect. cbn [heap set_heap].
  rewrite lookup_insert_eq. cbn [hSerial open_context].
  destruct (Z.eqb_spec (sensor_handle w) 0) as [|_]; [contradiction|].
  destruct (Z.eqb_spec (sensor_handle w) INVALID_HANDLE_VALUE) as [|_]; [contradiction|].
  cbn [negb andb]. f_equal.
  unfold free, CloseHandle. cbn [heap handles set_heap set_handles].
  rewrite (close_opened _ _ Hfresh), (delete_insert_id _ _ _ (fresh_block w)).
  destruct w; reflexivity.
Qed.

(** X15. Two sessions do not share state: a second successful connect returns a
    different block and a different handle and leaves the first session as
    it was, and disconnecting the first leaves the second Open with its
    handle open, while the first handle dangles. *)
Theorem sessions_are_independent (dev1 dev2 : string) (rate1 sid1 rate2 sid2 : Z)
    (w : world) :
  connect_ok w = true ->
  exists p1 p2 c1 c2 w1 w2 w3,
    hal_modbus_connect dev1 rate1 sid1 w = (Ptr p1, w1)
    /\ hal_modbus_connect dev2 rate2 sid2 w1 = (Ptr p2, w2)
    /\ p1 <> p2
    /\ heap w1 !! p1 = Some c1 /\ heap w2 !! p1 = Some c1 /\ heap w2 !! p2 = Some c2
    /\ hSerial c1 <> hSerial c2
    /\ hal_modbus_disconnect (Ptr p1) w2 = Done tt w3
    /\ heap w3 !! p2 = Some c2
    /\ (hSerial c2 ∈ handles w3) /\ (hSerial c1 ∉ handles w3)
    /\ session_open (Ptr p2) w3 = Some true
    /\ session_open (Ptr p1) w3 = None.
Proof.
  intros Hok.
  set (p1 := fresh (dom (heap w))).
  set (c1 := open_context dev1 rate1 sid1 (sensor_handle w)).
  set (w1 := set_heap (<[p1 := c1]> (heap w))
               (set_handles ({[sensor_handle w]} ∪ handles w) w)).
  assert (Hc1 : hal_modbus_connect dev1 rate1 sid1 w = (Ptr p1, w1))
    by (rewrite connect_cases, Hok; reflexivity).
  assert (Hok1 : connect_ok w1 = true) by exact Hok.
  set (p2 := fresh (dom (heap w1))).
  set (c2 := open_context dev2 rate2 sid2 (sensor_handle w1)).
  set (w2 := set_heap (<[p2 := c2]> (heap w1))
               (set_handles ({[sensor_handle w1]} ∪ handles w1) w1)).
  assert (Hc2 : hal_modbus_connect dev2 rate2 sid2 w1 = (Ptr p2, w2))
    by (rewrite connect_cases, Hok1; reflexivity).
  assert (Hlive1 : heap w1 !! p1 = Some c1) by apply lookup_insert_eq.
  assert (Hne : p1 <> p2).
  { intros E. pose proof (fresh_block w1) as Hn. fold p2 in Hn. rewrite <- E in Hn.
    congruence. }
  destruct (sensor_handle_fresh w) as (_ & H10 & H1i).
  destruct (sensor_handle_fresh w1) as (Hf2 & H20 & H2i).
  assert (Hh : sensor_handle w <> sensor_handle w1).
  { intros E. apply Hf2. rewrite <- E. unfold w1. cbn [handles set_heap set_handles].
    apply elem_of_union_l, elem_of_singleton. reflexivity. }
  assert (Hlive12 : heap w2 !! p1 = Some c1).
  { unfold w2. cbn [heap set_heap]. rewrite lookup_insert_ne by congruence. exact Hlive1. }
  assert (Hlive2 : heap w2 !! p2 = Some c2) by apply lookup_insert_eq.
  exists p1, p2, c1, c2, w1, w2.
  eexists. split; [exact Hc1|]. split; [exact Hc2|]. split; [exact Hne|].
  split; [exact Hlive1|]. split; [exact Hlive12|]. split; [exact Hlive2|].
  split; [exact Hh|].
  unfold hal_modbus_disconnect. rewrite Hlive12. cbn [hSerial c1 open_context].
  destruct (Z.eqb_spec (sensor_handle w) 0) as [|_]; [contradiction|].
  destruct (Z.eqb_spec (sensor_handle w) INVALID_HANDLE_VALUE) as [|_]; [contradiction|].
  cbn [negb andb]. split; [reflexivity|].
  unfold session_open, free, CloseHandle. cbn [heap handles set_heap set_handles].
  rewrite lookup_delete_ne by congruence. rewrite lookup_delete_eq.
  fold (heap w2). rewrite Hlive2. cbn [connected c2 open_context hSerial].
  split; [reflexivity|]. split; [|split; [|split; reflexivity]].
  - rewrite elem_of_difference, elem_of_singleton. split; [|congruence].
    unfold w2. cbn [handles set_heap set_handles].
    apply elem_of_union_l, elem_of_singleton. reflexivity.
  - rewrite elem_of_difference, elem_of_singleton. tauto.
Qed.

Lemma sessions_are_independent_witness :
  connect_ok (quiet_world []) = true
  /\ exists p1 p2 c1 c2 w1 w2 w3,
       hal_modbus_connect "COM3" 9600 1 (quiet_world []) = (Ptr p1, w1)
       /\ hal_modbus_connect "COM4" 19200 2 w1 = (Ptr p2, w2)
       /\ p1 <> p2
       /\ heap w1 !! p1 = Some c1 /\ heap w2 !! p1 = Some c1 /\ heap w2 !! p2 = Some c2
       /\ hSerial c1 <> hSerial c2
       /\ hal_modbus_disconnect (Ptr p1) w2 = Done tt w3
       /\ heap w3 !! p2 = Some c2
       /\ (hSerial c2 ∈ handles w3) /\ (hSerial c1 ∉ handles w3)
       /\ session_open (Ptr p2) w3 = Some true
       /\ session_open (Ptr p1) w3 = None.
Proof.
  assert (H : connect_ok (quiet_world []) = true) by reflexivity.
  split; [exact H|].
  exact (sessions_are_independent "COM3" "COM4" 9600 1 19200 2 (quiet_world []) H).
Defined.

(** ** Simulated register reads, further *)

(** The filling loop in closed form: the slots from [i] on take the
    simulated values in order, the others keep their content. *)
Lemma fill_registers_closed (P : prng) (n i : nat) (g : rng P) (dest : list Z) :
  (i + n <= length dest)%nat ->
  fill_registers P n i g dest
  = Some (firstn i dest ++ simulated P n g ++ skipn (i + n) dest).
Proof.
  revert i g dest. induction n as [|n IH]; intros i g dest Hroom.
  - cbn [fill_registers simulated app]. rewrite Nat.add_0_r, firstn_skipn. reflexivity.
  - cbn [fill_registers simulated]. destruct (rand P g) as [r g'].
    destruct (Nat.ltb_spec i (length dest)) as [Hi|Hi]; [|lia].
    set (v := ushort (Z.rem r 4000 + 1000)).
    rewrite IH by (rewrite length_insert; lia).
    rewrite (take_S_r _ i v) by (apply list_lookup_insert_eq; exact Hi).
    rewrite take_insert_ge by lia. rewrite drop_insert_lt by lia.
    rewrite <- app_assoc. cbn [app].
    replace (S i + n)%nat with (i + S n)%nat by lia. reflexivity.
Qed.

Lemma fill_registers_overflow (P : prng) (n i : nat) (g : rng P) (dest : list Z) :
  (1 <= n)%nat -> (length dest < i + n)%nat -> fill_registers P n i g dest = None.
Proof.
  revert i g dest. induction n as [|n IH]; intros i g dest Hn Hover; [lia|].
  cbn [fill_registers]. destruct (rand P g) as [r g'].
  destruct (Nat.ltb_spec i (length dest)) as [Hi|Hi]; [|reflexivity].
  apply IH; rewrite ?length_insert; lia.
Qed.

Lemma simulated_prefix (P : prng) (n m : nat) (g : rng P) :
  (n <= m)%nat -> firstn n (simulated P m g) = simulated P n g.
Proof.
  revert m g. induction n as [|n IH]; intros m g Hle; [reflexivity|].
  destruct m as [|m]; [lia|]. cbn [simulated]. destruct (rand P g) as [r g'].
  cbn [firstn]. rewrite IH by lia. reflexivity.
Qed.

Lemma simulated_length (P : prng) (n : nat) (g : rng P) : length (simulated P n g) = n.
Proof.
  revert g. induction n as [|n IH]; intros g; [reflexivity|].
  cbn [simulated]. destruct (rand P g) as [r g']. cbn [length]. rewrite IH. reflexivity.
Qed.

Lemma take_simulated (P : prng) (n m : nat) (g : rng P) (rest : list Z) :
  (n <= m)%nat -> firstn n (simulated P m g ++ rest) = simulated P n g.
Proof.
  intros Hle. rewrite (take_app_le (simulated P m g) rest n)
    by (rewrite simulated_length; exact Hle).
  apply simulated_prefix, Hle.
Qed.

Lemma seed_wraps (e addr : Z) : dword (dword e + addr) = dword (e + addr).
Proof. unfold dword. apply Zplus_mod_idemp_l. Qed.

(** X16. The edges of [hal_modbus_read_registers] on an Open session: a [NULL]
    destination is refused with -1; a count of zero or less succeeds and
    stores nothing; a count above the capacity of the destination is not
    checked and the stores run past its end. *)
Theorem read_registers_edges (P : prng) (ctx : ptr) (addr num : Z) (dest : list Z)
    (w : world) :
  session_open ctx w = Some true ->
  hal_modbus_read_registers P ctx addr num None w = Done (-1, None) w
  /\ (num <= 0 ->
      hal_modbus_read_registers P ctx addr num (Some dest) w = Done (0, Some dest) w)
  /\ (Z.of_nat (length dest) < num ->
      hal_modbus_read_registers P ctx addr num (Some dest) w = Undefined OutOfBounds).
Proof.
  unfold session_open, hal_modbus_read_registers.
  destruct ctx as [|b]; [discriminate|].
  destruct (heap w !! b) as [c|]; [|discriminate].
  intros [= Hopen]. apply negb_true_iff in Hopen. rewrite Hopen.
  split; [reflexivity|]. split.
  - intros Hnum. replace (Z.to_nat num) with 0%nat by lia. reflexivity.
  - intros Hover. rewrite fill_registers_overflow by lia. reflexivity.
Qed.

Lemma read_registers_edges_witness :
  session_open (Ptr 1) connected_world = Some true
  /\ hal_modbus_read_registers msvc_rand (Ptr 1) 0 5 None connected_world
     = Done (-1, None) connected_world
  /\ (5 <= 0 ->
      hal_modbus_read_registers msvc_rand (Ptr 1) 0 5 (Some [0; 0; 0; 7]) connected_world
      = Done (0, Some [0; 0; 0; 7]) connected_world)
  /\ (Z.of_nat (length [0; 0; 0; 7]) < 5 ->
      hal_modbus_read_registers msvc_rand (Ptr 1) 0 5 (Some [0; 0; 0; 7]) connected_world
      = Undefined OutOfBounds).
Proof.
  assert (Hopen : session_open (Ptr 1) connected_world = Some true)
    by (vm_compute; reflexivity).
  split; [exact Hopen|].
  exact (read_registers_edges msvc_rand (Ptr 1) 0 5 [0; 0; 0; 7] connected_world Hopen).
Defined.

(** X17. The simulated data depend on the sum of the time in seconds and the
    register address only, not on the session, and are laid out in order:
    a read of [num] registers returns the first [num] simulated values of the
    seed [(unsigned int)time(NULL) + addr] followed by the untouched rest of
    the destination.  So two reads with the same sum (the same address in the
    same second, or address [a + 1] one second earlier than [a]) agree on
    all the registers they both read. *)
Theorem read_registers_repeatable (P : prng) (ctx1 ctx2 : ptr)
    (addr1 addr2 num1 num2 : Z) (d1 d2 : list Z) (w1 w2 : world) :
  session_open ctx1 w1 = Some true ->
  session_open ctx2 w2 = Some true ->
  dword (epoch w1 + addr1) = dword (epoch w2 + addr2) ->
  num1 <= num2 ->
  num1 <= Z.of_nat (length d1) -> num2 <= Z.of_nat (length d2) ->
  exists r1 r2,
    hal_modbus_read_registers P ctx1 addr1 num1 (Some d1) w1 = Done (0, Some r1) w1
    /\ hal_modbus_read_registers P ctx2 addr2 num2 (Some d2) w2 = Done (0, Some r2) w2
    /\ r1 = simulated P (Z.to_nat num1) (srand P (dword (epoch w1 + addr1)))
            ++ skipn (Z.to_nat num1) d1
    /\ firstn (Z.to_nat num1) r1 = firstn (Z.to_nat num1) r2.
Proof.
  intros Ho1 Ho2 Hseed Hle Hr1 Hr2.
  unfold session_open in Ho1, Ho2. unfold hal_modbus_read_registers.
  destruct ctx1 as [|b1]; [discriminate|]. destruct ctx2 as [|b2]; [discriminate|].
  destruct (heap w1 !! b1) as [c1|]; [|discriminate].
  destruct (heap w2 !! b2) as [c2|]; [|discriminate].
  injection Ho1 as Ho1. injection Ho2 as Ho2.
  apply negb_true_iff in Ho1, Ho2. rewrite Ho1, Ho2, !seed_wraps, <- Hseed.
  rewrite !fill_registers_closed by lia. cbn [firstn app Nat.add].
  eexists _, _. split; [reflexivity|]. split; [reflexivity|]. split; [reflexivity|].
  change (firstn 0 d1) with (@nil Z). change (firstn 0 d2) with (@nil Z). cbn [app].
  rewrite !take_simulated by lia. reflexivity.
Qed.

(** Address 5 at second 1000 and address 4 at second 1001, two and three
    registers. *)
Lemma read_registers_repeatable_witness :
  session_open (Ptr 1) (session_world_at 1000) = Some true
  /\ session_open (Ptr 1) (session_world_at 1001) = Some true
  /\ dword (epoch (session_world_at 1000) + 5) = dword (epoch (session_world_at 1001) + 4)
  /\ 2 <= 3
  /\ 2 <= Z.of_nat (length [0; 0]) /\ 3 <= Z.of_nat (length [9; 9; 9; 9])
  /\ exists r1 r2,
       hal_modbus_read_registers msvc_rand (Ptr 1) 5 2 (Some [0; 0]) (session_world_at 1000)
       = Done (0, Some r1) (session_world_at 1000)
       /\ hal_modbus_read_registers msvc_rand (Ptr 1) 4 3 (Some [9; 9; 9; 9])
            (session_world_at 1001)
          = Done (0, Some r2) (session_world_at 1001)
       /\ r1 = simulated msvc_rand (Z.to_nat 2)
                 (srand msvc_rand (dword (epoch (session_world_at 1000) + 5)))
               ++ skipn (Z.to_nat 2) [0; 0]
       /\ firstn (Z.to_nat 2) r1 = firstn (Z.to_nat 2) r2.
Proof.
  assert (Ha : session_open (Ptr 1) (session_world_at 1000) = Some true)
    by (vm_compute; reflexivity).
  assert (Hb : session_open (Ptr 1) (session_world_at 1001) = Some true)
    by (vm_compute; reflexivity).
  assert (Hc : dword (epoch (session_world_at 1000) + 5)
               = dword (epoch (session_world_at 1001) + 4)) by reflexivity.
  assert (Hd : 2 <= 3) by lia.
  assert (He : 2 <= Z.of_nat (length [0; 0])) by (cbn [length]; lia).
  assert (Hf : 3 <= Z.of_nat (length [9; 9; 9; 9])) by (cbn [length]; lia).
  repeat (split; [assumption|]).
  exact (read_registers_repeatable msvc_rand (Ptr 1) (Ptr 1) 5 4 2 3 [0; 0] [9; 9; 9; 9]
           (session_world_at 1000) (session_world_at 1001) Ha Hb Hc Hd He Hf).
Defined.
